(** * Madryn Empleos: the Oferta API client and the job-posting form schema

    A shallow embedding of [src/lib/api/ofertas.ts] (the [fetch]-based client)
    and of the two zod [formSchema]s ([src/app/nuevo-aviso/page.tsx] for the
    create page, [src/unnamed/part_000] for the edit page), with the
    properties the specification states about them.

    Conventions.
    - A JavaScript string is the list of its UTF-16 code units ([jsstring]);
      [.length], [trim] and the regular expressions of the schemas work on
      code units.
    - A JavaScript number that is an integer (HTTP status, file size, time
      value in milliseconds) is a [Z] or an [N].
    - [async] functions are computations over an explicit world (the network
      and the clock) that either resolve with a value or reject with the
      value thrown. *)

From Stdlib Require Import ZArith NArith List String Ascii Bool Lia ZifyBool DecimalString.
Import ListNotations.

Set Warnings "-register-all".
Local Open Scope Z_scope.

(* ================================================================== *)
(** * JavaScript strings *)

Definition char16 := N.
Definition jsstring := list char16.

Fixpoint bytes_of_string (s : string) : list N :=
  match s with
  | EmptyString => []
  | String a s' => N_of_ascii a :: bytes_of_string s'
  end.

(** Source literals are UTF-8; [utf16_of_utf8] decodes the one-, two- and
    three-byte forms (every literal of the program is in the Basic
    Multilingual Plane). *)
Fixpoint utf16_of_utf8 (bs : list N) : jsstring :=
  match bs with
  | [] => []
  | b0 :: bs1 =>
      if (b0 <? 128)%N then b0 :: utf16_of_utf8 bs1
      else
        match bs1 with
        | [] => []
        | b1 :: bs2 =>
            if (b0 <? 224)%N
            then ((b0 mod 32) * 64 + b1 mod 64)%N :: utf16_of_utf8 bs2
            else
              match bs2 with
              | [] => []
              | b2 :: bs3 =>
                  ((b0 mod 16) * 4096 + (b1 mod 64) * 64 + b2 mod 64)%N
                    :: utf16_of_utf8 bs3
              end
        end
  end.

(** [js "..."] is the JavaScript string written by that literal. *)
Definition js (s : string) : jsstring := utf16_of_utf8 (bytes_of_string s).

(** [a === b] on strings. *)
Fixpoint str_eqb (a b : jsstring) : bool :=
  match a, b with
  | [], [] => true
  | x :: a', y :: b' => (x =? y)%N && str_eqb a' b'
  | _, _ => false
  end.

(** [String(n)] for an integer [n], as a template literal prints it. *)
Definition Number_toString (n : Z) : jsstring :=
  js (NilEmpty.string_of_int (Z.to_int n)).

(** ** White space and [String.prototype.trim]

    ECMAScript's WhiteSpace and LineTerminator code points; the class [\s] of
    a regular expression (without the [u] flag) is the same set. *)
Definition isWhiteSpace (c : char16) : bool :=
  ((9 <=? c) && (c <=? 13)                 (* TAB LF VT FF CR *)
   || (c =? 32) || (c =? 160)              (* SP, NBSP *)
   || (c =? 5760)                          (* U+1680 *)
   || ((8192 <=? c) && (c <=? 8202))       (* U+2000 .. U+200A *)
   || (c =? 8232) || (c =? 8233)           (* LS, PS *)
   || (c =? 8239) || (c =? 8287)           (* U+202F, U+205F *)
   || (c =? 12288) || (c =? 65279))%N.     (* U+3000, U+FEFF *)

Fixpoint trimStart (s : jsstring) : jsstring :=
  match s with
  | [] => []
  | c :: s' => if isWhiteSpace c then trimStart s' else s
  end.

Definition trimEnd (s : jsstring) : jsstring := rev (trimStart (rev s)).

Definition trim (s : jsstring) : jsstring := trimEnd (trimStart s).

(** [!s] for a string: only the empty string is falsy. *)
Definition str_falsy (s : jsstring) : bool :=
  match s with [] => true | _ => false end.

(* ================================================================== *)
(** * Dates

    A time value is a number of milliseconds since 1970-01-01T00:00:00Z; a
    [Date] object holds a time value or NaN (an invalid date). *)

Definition Date := option Z.

Definition msPerDay : Z := 86400000.

Definition isLeapYear (y : Z) : bool :=
  ((y mod 4 =? 0) && negb (y mod 100 =? 0)) || (y mod 400 =? 0).

Definition daysInMonth (y m : Z) : Z :=
  if m =? 2 then (if isLeapYear y then 29 else 28)
  else if (m =? 4) || (m =? 6) || (m =? 9) || (m =? 11) then 30
  else 31.

(** Day number (days since the epoch) of a proleptic Gregorian date. *)
Definition days_from_civil (y m d : Z) : Z :=
  let y' := if m <=? 2 then y - 1 else y in
  let era := y' / 400 in
  let yoe := y' - era * 400 in
  let mp := if 2 <? m then m - 3 else m + 9 in
  let doy := (153 * mp + 2) / 5 + d - 1 in
  let doe := yoe * 365 + yoe / 4 - yoe / 100 + doy in
  era * 146097 + doe - 719468.

(** The inverse: year, month and day of a day number. *)
Definition civil_from_days (z : Z) : Z * Z * Z :=
  let z' := z + 719468 in
  let era := z' / 146097 in
  let doe := z' - era * 146097 in
  let yoe := (doe - doe / 1460 + doe / 36524 - doe / 146096) / 365 in
  let doy := doe - (365 * yoe + yoe / 4 - yoe / 100) in
  let mp := (5 * doy + 2) / 153 in
  let d := doy - (153 * mp + 2) / 5 + 1 in
  let m := if mp <? 10 then mp + 3 else mp - 9 in
  (if m <=? 2 then yoe + era * 400 + 1 else yoe + era * 400, m, d).

Definition digit (n : Z) : char16 := Z.to_N (48 + n mod 10).

Definition pad2 (n : Z) : jsstring := [digit (n / 10); digit n].
Definition pad3 (n : Z) : jsstring := digit (n / 100) :: pad2 n.
Definition pad4 (n : Z) : jsstring := digit (n / 1000) :: pad3 n.
Definition pad6 (n : Z) : jsstring := digit (n / 100000) :: digit (n / 10000) :: pad4 n.

(** The year of an ISO string: four digits from 0 to 9999, otherwise the
    expanded form with a sign and six digits. *)
Definition isoYear (y : Z) : jsstring :=
  if (0 <=? y) && (y <=? 9999) then pad4 y
  else (if y <? 0 then 45%N else 43%N) :: pad6 (Z.abs y).

(** [new Date(t).toISOString()] for a time value [t]:
    [YYYY-MM-DDTHH:mm:ss.sssZ], in UTC. *)
Definition isoOfTime (t : Z) : jsstring :=
  let '(y, m, d) := civil_from_days (t / msPerDay) in
  let ms := t mod msPerDay in
  isoYear y ++ js "-" ++ pad2 m ++ js "-" ++ pad2 d ++ js "T"
    ++ pad2 (ms / 3600000) ++ js ":" ++ pad2 (ms / 60000 mod 60) ++ js ":"
    ++ pad2 (ms / 1000 mod 60) ++ js "." ++ pad3 (ms mod 1000) ++ js "Z".

Definition isDigit (c : char16) : bool := ((48 <=? c) && (c <=? 57))%N.

Definition digitVal (c : char16) : Z := Z.of_N c - 48.

(** The date-only form [YYYY-MM-DD] of the ISO format, which is what an
    [<input type="date">] yields: a valid calendar date is midnight UTC of
    that day. Anything else is not decided here. *)
Definition parseDateOnly (s : jsstring) : option Z :=
  match s with
  | [y1; y2; y3; y4; h1; m1; m2; h2; d1; d2] =>
      if forallb isDigit [y1; y2; y3; y4; m1; m2; d1; d2]
         && (h1 =? 45)%N && (h2 =? 45)%N
      then
        let y := 1000 * digitVal y1 + 100 * digitVal y2 + 10 * digitVal y3 + digitVal y4 in
        let m := 10 * digitVal m1 + digitVal m2 in
        let d := 10 * digitVal d1 + digitVal d2 in
        if (1 <=? m) && (m <=? 12) && (1 <=? d) && (d <=? daysInMonth y m)
        then Some (days_from_civil y m d * msPerDay)
        else None
      else None
  | _ => None
  end.

(** [a < b] on two [Date]s compares their time values; a comparison with NaN
    is false. *)
Definition Date_lt (a b : Date) : bool :=
  match a, b with
  | Some x, Some y => x <? y
  | _, _ => false
  end.

(** [s.split("T")[0]]: the part of [s] before the first ["T"]. *)
Fixpoint beforeT (s : jsstring) : jsstring :=
  match s with
  | [] => []
  | c :: s' => if (c =? 84)%N then [] else c :: beforeT s'
  end.

(* ================================================================== *)
(** * JSON values, thrown values and promises *)

(** A decoded JSON value. Object members keep their order. (Integers are
    enough for the numbers of this API.) *)
Inductive JSON : Type :=
| JNull
| JBool (b : bool)
| JNumber (n : Z)
| JString (s : jsstring)
| JArray (items : list JSON)
| JObject (members : list (jsstring * JSON)).

(** [typeof v] for a decoded JSON value. *)
Definition typeof (v : JSON) : string :=
  match v with
  | JNull => "object"
  | JBool _ => "boolean"
  | JNumber _ => "number"
  | JString _ => "string"
  | JArray _ => "object"
  | JObject _ => "object"
  end.

Definition Array_isArray (v : JSON) : bool :=
  match v with JArray _ => true | _ => false end.

Definition isNull (v : JSON) : bool :=
  match v with JNull => true | _ => false end.

(** [o[k]] for an object [o]: the first member named [k]. *)
Fixpoint member (k : jsstring) (ms : list (jsstring * JSON)) : option JSON :=
  match ms with
  | [] => None
  | (k', v) :: ms' => if str_eqb k k' then Some v else member k ms'
  end.

Definition JSON_get (k : string) (v : JSON) : option JSON :=
  match v with
  | JObject ms => member (js k) ms
  | _ => None
  end.

(** [s] or [null]. *)
Definition JNullable (s : option jsstring) : JSON :=
  match s with Some x => JString x | None => JNull end.

(** What a [throw] can carry: an [Error] (or a subclass such as [TypeError],
    [SyntaxError], [RangeError]) with its name and message, or any other
    value. *)
Inductive Thrown : Type :=
| ErrorObject (name : string) (message : jsstring)
| NonError (v : JSON).

(** [new Error(message)]. *)
Definition Error (message : jsstring) : Thrown := ErrorObject "Error" message.

Definition instanceofError (e : Thrown) : bool :=
  match e with ErrorObject _ _ => true | NonError _ => false end.

Inductive Promise (A : Type) : Type :=
| Resolved (a : A)
| Rejected (e : Thrown).
Arguments Resolved {A} a.
Arguments Rejected {A} e.

(** [new Date(d).toISOString()]: a [RangeError] on an invalid date. *)
Definition toISOString (d : Date) : Promise jsstring :=
  match d with
  | Some t => Resolved (isoOfTime t)
  | None => Rejected (ErrorObject "RangeError" (js "Invalid time value"))
  end.

(* ================================================================== *)
(** * HTTP requests and responses *)

Record File : Type := mkFile {
  file_name : jsstring;
  file_size : N;
  file_type : jsstring
}.

Inductive Method : Type := GET | POST | PUT | DELETE.

(** A part of a multipart [FormData] body. [FormJSON v] is the string
    [JSON.stringify(v)], kept as the value it encodes. *)
Inductive FormValue : Type :=
| FormString (s : jsstring)
| FormJSON (v : JSON)
| FormBlob (f : File).

Definition FormData := list (jsstring * FormValue).

(** [formData.append(k, v)]. *)
Definition append (fd : FormData) (k : string) (v : FormValue) : FormData :=
  fd ++ [(js k, v)].

Fixpoint FormData_get (k : jsstring) (fd : FormData) : option FormValue :=
  match fd with
  | [] => None
  | (k', v) :: fd' => if str_eqb k k' then Some v else FormData_get k fd'
  end.

Record Request : Type := mkRequest {
  url : jsstring;
  method : Method;
  headers : list (string * jsstring);
  body : option FormData
}.

(** A response: its status, and what [response.text()] and
    [response.json()] settle to. *)
Record Response : Type := mkResponse {
  status : Z;
  text : Promise jsstring;
  json : Promise JSON
}.

(** [response.ok]: the status is in the range 200-299. *)
Definition ok (r : Response) : bool := (200 <=? status r) && (status r <=? 299).

(** The message of the "request failed" error: the status and the body
    text, [`Error ${response.status}: ${errorText}`]. *)
Definition requestFailed (st : Z) (errorText : jsstring) : Thrown :=
  Error (js "Error " ++ Number_toString st ++ js ": " ++ errorText).

(** The two "malformed response" errors. *)
Definition notAnObject : Thrown :=
  Error (js "La respuesta del servidor no es un objeto válido").

Definition notAnArray : Thrown :=
  Error (js "La respuesta del servidor no es un array válido").

(* ================================================================== *)
(** * Arguments of the mutating calls *)

Module UpdateData.
Record t : Type := mk {
  id : jsstring;
  titulo : jsstring;
  descripcion : jsstring;
  usuarioId : jsstring;
  empresaConsultora : jsstring;
  fechaCierre : option Date;          (* Date | null *)
  formaPostulacion : jsstring;
  emailContacto : option jsstring;    (* string | null *)
  linkPostulacion : option jsstring;  (* string | null *)
  categoriaId : jsstring;
  logo : option File;                 (* absent, null or a File *)
  logoUrl : option jsstring;          (* absent, null or a string *)
  habilitado : bool
}.
End UpdateData.

Module CreateData.
Record t : Type := mk {
  titulo : jsstring;
  descripcion : jsstring;
  usuarioId : jsstring;
  empresaConsultora : jsstring;
  fechaCierre : option jsstring;      (* string | null *)
  formaPostulacion : jsstring;
  emailContacto : option jsstring;
  linkPostulacion : option jsstring;
  categoriaId : jsstring;
  logo : option File
}.
End CreateData.

(* ================================================================== *)
(** * The Oferta API client ([src/lib/api/ofertas.ts]) *)

Section Client.

(** [process.env.NEXT_PUBLIC_API_URL]. *)
Variable apiUrl : jsstring.

(** The world outside the client: the network with the backend behind it,
    and the clock. [fetch] sends a request, which changes the world, and
    settles to a response or to a rejection (no response at all);
    [Date_now] reads the clock. *)
Variable World : Type.
Variable fetch : Request -> World -> Promise Response * World.
Variable Date_now : World -> Z.

Definition Async (A : Type) : Type := World -> Promise A * World.

Definition ret {A} (a : A) : Async A := fun w => (Resolved a, w).

Definition throw {A} (e : Thrown) : Async A := fun w => (Rejected e, w).

Definition bind {A B} (m : Async A) (k : A -> Async B) : Async B :=
  fun w =>
    match m w with
    | (Resolved a, w') => k a w'
    | (Rejected e, w') => (Rejected e, w')
    end.

(** [await p] for a promise that is already settled. *)
Definition await {A} (p : Promise A) : Async A := fun w => (p, w).

(** [try { m } catch (error) { h error }]. *)
Definition try_catch {A} (m : Async A) (h : Thrown -> Async A) : Async A :=
  fun w =>
    match m w with
    | (Resolved a, w') => (Resolved a, w')
    | (Rejected e, w') => h e w'
    end.

(** [new Date()]. *)
Definition new_Date : Async Z := fun w => (Resolved (Date_now w), w).

Notation "x <- m ;; k" := (bind m (fun x => k))
  (at level 61, m at next level, right associativity).
Notation "m ;;; k" := (bind m (fun _ => k))
  (at level 61, right associativity).

(** [if (c) { throw e }]. *)
Definition throw_if (c : bool) (e : Async Thrown) : Async unit :=
  if c then (x <- e ;; throw x) else ret tt.

(** The [catch] clause every function ends with:
    [throw error instanceof Error ? error : new Error(unknown)]. *)
Definition rethrow {A} (unknown : jsstring) (error : Thrown) : Async A :=
  throw (if instanceofError error then error else Error unknown).

(** [if (!response.ok) { const errorText = await response.text();
    throw new Error(`Error ${response.status}: ${errorText}`); }] *)
Definition throw_unless_ok (response : Response) : Async unit :=
  throw_if (negb (ok response))
    (errorText <- await (text response) ;;
     ret (requestFailed (status response) errorText)).

Definition jsonHeaders : list (string * jsstring) :=
  [("Content-Type", js "application/json")]%string.

Definition bearer (token : jsstring) : string * jsstring :=
  ("Authorization"%string, js "Bearer " ++ token).

Definition fetchOfertaById (id : jsstring) : Async JSON :=
  try_catch
    (response <- fetch (mkRequest (apiUrl ++ js "/api/ofertas/" ++ id)
                          GET jsonHeaders None) ;;
     throw_unless_ok response ;;;
     data <- await (json response) ;;
     throw_if (negb (typeof data =? "object")%string || isNull data)
       (ret notAnObject) ;;;
     ret data)
    (rethrow (js "Error desconocido al obtener oferta con ID " ++ id)).

Definition fetchOfertaBySlug (slug : jsstring) : Async JSON :=
  try_catch
    (response <- fetch (mkRequest (apiUrl ++ js "/api/ofertas/detalles/" ++ slug)
                          GET jsonHeaders None) ;;
     throw_unless_ok response ;;;
     data <- await (json response) ;;
     throw_if (negb (typeof data =? "object")%string || isNull data)
       (ret notAnObject) ;;;
     ret data)
    (rethrow (js "Error desconocido al obtener oferta con slug " ++ slug)).

Definition fetchOfertas : Async JSON :=
  try_catch
    (response <- fetch (mkRequest (apiUrl ++ js "/api/ofertas")
                          GET jsonHeaders None) ;;
     throw_unless_ok response ;;;
     data <- await (json response) ;;
     throw_if (negb (Array_isArray data)) (ret notAnArray) ;;;
     ret data)
    (rethrow (js "Error desconocido al obtener ofertas")).

Definition fetchUserOfertas (token : jsstring) : Async JSON :=
  try_catch
    (response <- fetch (mkRequest (apiUrl ++ js "/api/ofertas/mis-avisos")
                          GET (jsonHeaders ++ [bearer token]) None) ;;
     throw_unless_ok response ;;;
     data <- await (json response) ;;
     throw_if (negb (Array_isArray data)) (ret notAnArray) ;;;
     ret data)
    (rethrow (js "Error desconocido al obtener ofertas del usuario")).

(** The object literal [ofertaData] of [updateOferta], given the two
    timestamps already printed. *)
Definition updateOferta_ofertaData (data : UpdateData.t)
    (fechaPublicacion : jsstring) (fechaCierre : JSON) : JSON :=
  JObject
    [ (js "id", JString (UpdateData.id data));
      (js "titulo", JString (UpdateData.titulo data));
      (js "descripcion", JString (UpdateData.descripcion data));
      (js "usuario", JObject [(js "id", JString (UpdateData.usuarioId data))]);
      (js "empresaConsultora", JString (UpdateData.empresaConsultora data));
      (js "fechaPublicacion", JString fechaPublicacion);
      (js "fechaCierre", fechaCierre);
      (js "formaPostulacion", JString (UpdateData.formaPostulacion data));
      (js "emailContacto",
        if str_eqb (UpdateData.formaPostulacion data) (js "MAIL")
        then JNullable (UpdateData.emailContacto data) else JNull);
      (js "linkPostulacion",
        if str_eqb (UpdateData.formaPostulacion data) (js "LINK")
        then JNullable (UpdateData.linkPostulacion data) else JNull);
      (js "categoria", JObject [(js "id", JString (UpdateData.categoriaId data))]);
      (js "habilitado", JBool (UpdateData.habilitado data)) ].

(** The multipart body [updateOferta] assembles before it calls [fetch].
    A [Date] object is truthy even when it is invalid, and then
    [toISOString] throws. *)
Definition updateOferta_formData (data : UpdateData.t) : Async FormData :=
  let formData : FormData := [] in
  now <- new_Date ;;
  fechaPublicacion <- await (toISOString (Some now)) ;;
  fechaCierre <-
    match UpdateData.fechaCierre data with
    | Some d => s <- await (toISOString d) ;; ret (JString s)
    | None => ret JNull
    end ;;
  let ofertaData := updateOferta_ofertaData data fechaPublicacion fechaCierre in
  let formData := append formData "oferta" (FormJSON ofertaData) in
  let formData :=
    match UpdateData.logo data with
    | Some f => append formData "logo" (FormBlob f)
    | None => formData
    end in
  let formData :=
    append formData "logoUrl"
      (FormString
         match UpdateData.logoUrl data with
         | Some u => u
         | None => js "null"
         end) in
  ret formData.

Definition updateOferta (data : UpdateData.t) (token : jsstring) : Async JSON :=
  try_catch
    (formData <- updateOferta_formData data ;;
     response <- fetch (mkRequest (apiUrl ++ js "/api/ofertas/" ++ UpdateData.id data)
                          PUT [bearer token] (Some formData)) ;;
     throw_unless_ok response ;;;
     dataResponse <- await (json response) ;;
     ret dataResponse)
    (rethrow (js "Error desconocido al actualizar oferta con ID "
                ++ UpdateData.id data)).

(** The object literal [ofertaData] of [createOferta]. *)
Definition createOferta_ofertaData (data : CreateData.t)
    (fechaPublicacion : jsstring) : JSON :=
  JObject
    [ (js "titulo", JString (CreateData.titulo data));
      (js "descripcion", JString (CreateData.descripcion data));
      (js "usuario", JObject [(js "id", JString (CreateData.usuarioId data))]);
      (js "empresaConsultora", JString (CreateData.empresaConsultora data));
      (js "fechaPublicacion", JString fechaPublicacion);
      (js "fechaCierre", JNullable (CreateData.fechaCierre data));
      (js "formaPostulacion", JString (CreateData.formaPostulacion data));
      (js "emailContacto",
        if str_eqb (CreateData.formaPostulacion data) (js "MAIL")
        then JNullable (CreateData.emailContacto data) else JNull);
      (js "linkPostulacion",
        if str_eqb (CreateData.formaPostulacion data) (js "LINK")
        then JNullable (CreateData.linkPostulacion data) else JNull);
      (js "categoria", JObject [(js "id", JString (CreateData.categoriaId data))]) ].

Definition createOferta_formData (data : CreateData.t) : Async FormData :=
  let formData : FormData := [] in
  now <- new_Date ;;
  fechaPublicacion <- await (toISOString (Some now)) ;;
  let ofertaData := createOferta_ofertaData data fechaPublicacion in
  let formData := append formData "oferta" (FormJSON ofertaData) in
  let formData :=
    match CreateData.logo data with
    | Some f => append formData "logo" (FormBlob f)
    | None => formData
    end in
  ret formData.

Definition createOferta (data : CreateData.t) (token : jsstring) : Async JSON :=
  try_catch
    (formData <- createOferta_formData data ;;
     response <- fetch (mkRequest (apiUrl ++ js "/api/ofertas")
                          POST [bearer token] (Some formData)) ;;
     throw_unless_ok response ;;;
     dataResponse <- await (json response) ;;
     ret dataResponse)
    (rethrow (js "Error desconocido al crear oferta")).

Definition deleteOferta_request (id token : jsstring) : Request :=
  mkRequest (apiUrl ++ js "/api/ofertas/" ++ id) DELETE
    (jsonHeaders ++ [bearer token]) None.

Definition deleteOferta (id token : jsstring) : Async unit :=
  try_catch
    (response <- fetch (deleteOferta_request id token) ;;
     if negb (ok response) then
       if status response =? 404 then ret tt
       else
         errorText <- await (text response) ;;
         throw (requestFailed (status response) errorText)
     else ret tt)
    (rethrow (js "Error desconocido al eliminar oferta con ID " ++ id)).

Definition deleteOfertaAdmin (id token : jsstring) : Async unit :=
  try_catch
    (response <- fetch (mkRequest (apiUrl ++ js "/api/admin/ofertas/" ++ id) DELETE
                          (jsonHeaders ++ [bearer token]) None) ;;
     throw_unless_ok response)
    (rethrow (js "Error desconocido al eliminar oferta con ID " ++ id
                ++ js " como administrador")).

(** The part named ["oferta"] of a multipart body, decoded. *)
Definition oferta_part (fd : FormData) : option JSON :=
  match FormData_get (js "oferta") fd with
  | Some (FormJSON v) => Some v
  | _ => None
  end.

End Client.

(* ================================================================== *)
(** * The part of zod (version 3) the form schemas use

    A schema parses an input at a path and returns a status with the parsed
    value, adding issues to the context as it goes: [OK] (valid), [DIRTY]
    (a value, with issues) or [INVALID] (aborted). A failing string check or
    refinement marks the result dirty and parsing goes on, so later checks
    and refinements still run; an aborted inner parse skips the refinements
    around it. *)

Module z.

Record Issue : Type := mkIssue {
  path : list String.string;
  message : jsstring
}.

Inductive SyncParseReturn (A : Type) : Type :=
| OK (v : A)
| DIRTY (v : A)
| INVALID.
Arguments OK {A} v.
Arguments DIRTY {A} v.
Arguments INVALID {A}.

Definition Schema (I O : Type) : Type :=
  list String.string -> I -> SyncParseReturn O * list Issue.

(** [data.trim()], written apart from the check [trim] below. *)
Local Abbreviation String_trim := trim (only parsing).

(** The checks of a [ZodString], in the order they were chained. [email]
    and [url] carry the test they apply: zod's e-mail pattern, and whether
    the host's [new URL(data)] does not throw. *)
Inductive StringCheck : Type :=
| min (value : nat) (message : String.string)
| max (value : nat) (message : String.string)
| trim
| email (valid : jsstring -> bool) (message : String.string)
| url (valid : jsstring -> bool) (message : String.string).

(** A value of type [T | null | undefined]. *)
Inductive maybe (T : Type) : Type :=
| undefined
| null
| value (v : T).
Arguments undefined {T}.
Arguments null {T}.
Arguments value {T} v.

(** An atom of a character class [[...]] of a regular expression. *)
Inductive ClassAtom : Type :=
| range (lo hi : String.string)     (* [lo-hi] *)
| chars (cs : String.string)        (* each character of [cs] *)
| space.                            (* [\s] *)

Definition code (c : String.string) : char16 := hd 0%N (js c).

Definition atom_mem (c : char16) (a : ClassAtom) : bool :=
  match a with
  | range lo hi => ((code lo <=? c) && (c <=? code hi))%N
  | chars cs => existsb (N.eqb c) (js cs)
  | space => isWhiteSpace c
  end.

Definition class_mem (cls : list ClassAtom) (c : char16) : bool :=
  existsb (atom_mem c) cls.

(** [/[^cls]/.test(val)]: some code unit of [val] is outside [cls]. *)
Definition test_outside (cls : list ClassAtom) (val : jsstring) : bool :=
  existsb (fun c => negb (class_mem cls c)) val.

(** [ZodString._parse] on a string: run the checks in order; [trim]
    replaces the data, the others add an issue when they fail. *)
Fixpoint run_checks (checks : list StringCheck) (path : list String.string)
    (data : jsstring) : jsstring * list Issue :=
  match checks with
  | [] => (data, [])
  | check :: rest =>
      let '(data', failed) :=
        match check with
        | min n m =>
            (data, if (List.length data <? n)%nat then [mkIssue path (js m)] else [])
        | max n m =>
            (data, if (n <? List.length data)%nat then [mkIssue path (js m)] else [])
        | trim => (String_trim data, [])
        | email valid m => (data, if valid data then [] else [mkIssue path (js m)])
        | url valid m => (data, if valid data then [] else [mkIssue path (js m)])
        end in
      let '(out, issues) := run_checks rest path data' in
      (out, failed ++ issues)
  end.

(** [z.string()] with its chained checks. *)
Definition string (checks : list StringCheck) : Schema jsstring jsstring :=
  fun path data =>
    let '(out, issues) := run_checks checks path data in
    (match issues with [] => OK out | _ => DIRTY out end, issues).

(** [z.enum([...])] and [z.instanceof(File)] on an input that has the
    type already: nothing to check. *)
Definition any {T} : Schema T T := fun _ data => (OK data, []).

(** [schema.refine(check, { message, path })]. *)
Definition refine {I O} (schema : Schema I O) (check : O -> bool)
    (message : String.string) (at_path : list String.string) : Schema I O :=
  fun path data =>
    match schema path data with
    | (INVALID, issues) => (INVALID, issues)
    | (OK v, issues) =>
        if check v then (OK v, issues)
        else (DIRTY v, issues ++ [mkIssue (path ++ at_path) (js message)])
    | (DIRTY v, issues) =>
        if check v then (DIRTY v, issues)
        else (DIRTY v, issues ++ [mkIssue (path ++ at_path) (js message)])
    end.

Definition map_result {A B} (f : A -> B) (r : SyncParseReturn A) : SyncParseReturn B :=
  match r with
  | OK v => OK (f v)
  | DIRTY v => DIRTY (f v)
  | INVALID => INVALID
  end.

(** [schema.optional()]: [undefined] is accepted as it is. *)
Definition optional {I O} (schema : Schema I O) : Schema (option I) (option O) :=
  fun path data =>
    match data with
    | None => (OK None, [])
    | Some d => let '(r, issues) := schema path d in (map_result Some r, issues)
    end.

(** [schema.optional().nullable()]: [null] and [undefined] are accepted
    as they are. *)
Definition optional_nullable {I O} (schema : Schema I O) : Schema (maybe I) (maybe O) :=
  fun path data =>
    match data with
    | undefined => (OK undefined, [])
    | null => (OK null, [])
    | value d => let '(r, issues) := schema path d in (map_result value r, issues)
    end.

(** [ParseStatus.mergeObjectSync], one property at a time: the object is
    aborted when a property is, dirty when a property is dirty. *)
Definition merge {A B} (f : SyncParseReturn (A -> B)) (x : SyncParseReturn A)
    : SyncParseReturn B :=
  match f, x with
  | INVALID, _ => INVALID
  | _, INVALID => INVALID
  | OK g, OK v => OK (g v)
  | OK g, DIRTY v => DIRTY (g v)
  | DIRTY g, OK v => DIRTY (g v)
  | DIRTY g, DIRTY v => DIRTY (g v)
  end.

(** [schema.safeParse(data)]: the data when the status is valid, the
    issues otherwise. *)
Definition safeParse {I O} (schema : Schema I O) (data : I) : O + list Issue :=
  match schema [] data with
  | (OK v, _) => inl v
  | (_, issues) => inr issues
  end.

End z.

(* ================================================================== *)
(** * The form schemas of the two pages

    [formSchema] of [src/app/nuevo-aviso/page.tsx] (the create page) and of
    [src/unnamed/part_000] (the edit page). The two differ in the message of
    the title's character rule and in the character class of the company
    name; every other rule is the same text in both files. *)

Inductive Page : Type := NuevoAviso | EditarAviso.

Inductive FormaPostulacion : Type := MAIL | LINK.

(** [type FormData = z.infer<typeof formSchema>]: the state of the form. *)
Module Form.
Record t : Type := mk {
  titulo : jsstring;
  descripcion : jsstring;
  empresaConsultora : jsstring;
  categoria : jsstring;
  formaPostulacion : FormaPostulacion;
  emailContacto : z.maybe jsstring;
  linkPostulacion : z.maybe jsstring;
  fechaCierre : z.maybe jsstring;
  logo : option File
}.
End Form.

(** [val.length > 0 && val.trim().length > 0]. *)
Definition notOnlySpaces (val : jsstring) : bool :=
  (0 <? List.length val)%nat && (0 <? List.length (trim val))%nat.

(** [/[^a-zA-Z0-9\sáéíóúÁÉÍÓÚñÑ./]/], the class of the title, on both
    pages. *)
Definition titulo_class : list z.ClassAtom :=
  [z.range "a" "z"; z.range "A" "Z"; z.range "0" "9"; z.space;
   z.chars "áéíóúÁÉÍÓÚñÑ./"].

(** The class of the company name: [/[^a-zA-Z0-9\sáéíóúÁÉÍÓÚ./]/] on the
    create page, [/[^a-zA-Z0-9\sáéíóúÁÉÍÓÚñÑ.,-]/] on the edit page. *)
Definition empresaConsultora_class (page : Page) : list z.ClassAtom :=
  match page with
  | NuevoAviso =>
      [z.range "a" "z"; z.range "A" "Z"; z.range "0" "9"; z.space;
       z.chars "áéíóúÁÉÍÓÚ./"]
  | EditarAviso =>
      [z.range "a" "z"; z.range "A" "Z"; z.range "0" "9"; z.space;
       z.chars "áéíóúÁÉÍÓÚñÑ.,-"]
  end.

Definition titulo (page : Page) : z.Schema jsstring jsstring :=
  z.refine
    (z.refine
       (z.string
          [z.min 1 "El título es obligatorio";
           z.max 150 "El título no puede superar los 150 caracteres";
           z.trim])
       notOnlySpaces
       "El título no puede ser solo espacios" [])
    (fun val => negb (z.test_outside titulo_class val))
    match page with
    | NuevoAviso => "El título no puede contener caracteres especiales raros (excepto /)"
    | EditarAviso => "El título no puede contener caracteres especiales raros"
    end [].

Definition descripcion : z.Schema jsstring jsstring :=
  z.refine
    (z.string
       [z.min 1 "La descripción es obligatoria";
        z.max 5000 "La descripción no puede superar los 5000 caracteres";
        z.trim])
    notOnlySpaces
    "La descripción no puede ser solo espacios" [].

Definition empresaConsultora (page : Page) : z.Schema jsstring jsstring :=
  z.refine
    (z.refine
       (z.string
          [z.min 1 "El nombre de la empresa es obligatorio";
           z.max 150 "El nombre de la empresa no puede superar los 150 caracteres";
           z.trim])
       notOnlySpaces
       "La empresa no puede ser solo espacios" [])
    (fun val => negb (z.test_outside (empresaConsultora_class page) val))
    "La empresa no puede contener caracteres especiales raros" [].

Definition categoria : z.Schema jsstring jsstring :=
  z.string [z.min 1 "Debes seleccionar una categoría"].

(** [(file) => !file || file.size <= 5 * 1024 * 1024]. *)
Definition logo_size_ok (file : option File) : bool :=
  match file with
  | None => true
  | Some f => (file_size f <=? 5 * 1024 * 1024)%N
  end.

(** [(file) => !file ||
    ["image/png", "image/jpeg", "image/jpg"].includes(file.type)]. *)
Definition logo_type_ok (file : option File) : bool :=
  match file with
  | None => true
  | Some f =>
      existsb (str_eqb (file_type f)) [js "image/png"; js "image/jpeg"; js "image/jpg"]
  end.

Definition logoSizeMessage : string := "El archivo no puede superar los 5MB".

Definition logoTypeMessage : string :=
  "Solo se permiten imágenes en formato PNG, JPEG o JPG".

Definition logo : z.Schema (option File) (option File) :=
  z.refine
    (z.refine (z.optional z.any)
       logo_size_ok logoSizeMessage [])
    logo_type_ok logoTypeMessage [].

(** [!v] for a value of type [string | null | undefined]. *)
Definition falsy (v : z.maybe jsstring) : bool :=
  match v with
  | z.value s => str_falsy s
  | _ => true
  end.

(** [!v || v.trim() === ""]. *)
Definition blank (v : z.maybe jsstring) : bool :=
  match v with
  | z.value s => str_falsy s || str_eqb (trim s) []
  | _ => true
  end.

(** The first refinement of the object: with MAIL, an e-mail is required. *)
Definition email_required (data : Form.t) : bool :=
  match Form.formaPostulacion data with
  | MAIL => if blank (Form.emailContacto data) then false else true
  | LINK => true
  end.

(** The second refinement: with LINK, a link is required. *)
Definition link_required (data : Form.t) : bool :=
  match Form.formaPostulacion data with
  | LINK => if blank (Form.linkPostulacion data) then false else true
  | MAIL => true
  end.

Definition emailRequiredMessage : string :=
  "Debes ingresar un email válido para postulación por email".

Definition linkRequiredMessage : string :=
  "Debes ingresar una URL válida para postulación por enlace".

Definition fechaCierreMessage : string :=
  "La fecha de cierre no puede ser anterior a hoy".

Section FormSchema.

(** What the host decides: zod's e-mail pattern, whether [new URL(s)]
    parses, and [new Date(s)] for a string that is not a valid date in the
    date-only form. *)
Variable emailRegex_test : jsstring -> bool.
Variable URL_canParse : jsstring -> bool.
Variable Date_parse_other : jsstring -> Date.

(** [new Date(s)] for a string [s]. *)
Definition Date_of_string (s : jsstring) : Date :=
  match parseDateOnly s with
  | Some t => Some t
  | None => Date_parse_other s
  end.

Definition emailContacto : z.Schema (z.maybe jsstring) (z.maybe jsstring) :=
  z.optional_nullable
    (z.string [z.email emailRegex_test "Debes ingresar un email válido"]).

Definition linkPostulacion : z.Schema (z.maybe jsstring) (z.maybe jsstring) :=
  z.optional_nullable
    (z.refine
       (z.string
          [z.url URL_canParse "Debes ingresar una URL válida (ej: https://example.com)";
           z.trim])
       (fun val => str_falsy val || notOnlySpaces val)
       "El link no puede ser solo espacios" []).

Definition fechaCierre : z.Schema (z.maybe jsstring) (z.maybe jsstring) :=
  z.optional_nullable (z.string []).

(** The third refinement, at time [now]:
    [data.fechaCierre && new Date(data.fechaCierre) < new Date()]
    fails the form. *)
Definition fechaCierre_not_past (now : Z) (data : Form.t) : bool :=
  match Form.fechaCierre data with
  | z.value s =>
      if negb (str_falsy s) && Date_lt (Date_of_string s) (Some now)
      then false else true
  | _ => true
  end.

(** [z.object({...})]: every property is parsed, in the order of the
    shape, under its own key. *)
Definition object (page : Page) : z.Schema Form.t Form.t :=
  fun path data =>
    let '(r1, i1) := titulo page (path ++ ["titulo"%string]) (Form.titulo data) in
    let '(r2, i2) := descripcion (path ++ ["descripcion"%string]) (Form.descripcion data) in
    let '(r3, i3) :=
      empresaConsultora page (path ++ ["empresaConsultora"%string])
        (Form.empresaConsultora data) in
    let '(r4, i4) := categoria (path ++ ["categoria"%string]) (Form.categoria data) in
    let '(r5, i5) :=
      z.any (path ++ ["formaPostulacion"%string]) (Form.formaPostulacion data) in
    let '(r6, i6) :=
      emailContacto (path ++ ["emailContacto"%string]) (Form.emailContacto data) in
    let '(r7, i7) :=
      linkPostulacion (path ++ ["linkPostulacion"%string]) (Form.linkPostulacion data) in
    let '(r8, i8) := fechaCierre (path ++ ["fechaCierre"%string]) (Form.fechaCierre data) in
    let '(r9, i9) := logo (path ++ ["logo"%string]) (Form.logo data) in
    (z.merge (z.merge (z.merge (z.merge (z.merge (z.merge (z.merge (z.merge
       (z.merge (z.OK Form.mk) r1) r2) r3) r4) r5) r6) r7) r8) r9,
     i1 ++ i2 ++ i3 ++ i4 ++ i5 ++ i6 ++ i7 ++ i8 ++ i9).

(** The whole schema of a page, validated at time [now]. *)
Definition formSchema (page : Page) (now : Z) : z.Schema Form.t Form.t :=
  z.refine
    (z.refine
       (z.refine (object page)
          email_required emailRequiredMessage ["emailContacto"%string])
       link_required linkRequiredMessage ["linkPostulacion"%string])
    (fechaCierre_not_past now) fechaCierreMessage ["fechaCierre"%string].

(** [form.handleSubmit(onSubmit)] with the zod resolver: [onSubmit] runs
    on the parsed data only when the schema reports no issue. *)
Definition handleSubmit {R} (page : Page) (now : Z) (onSubmit : Form.t -> R)
    (values : Form.t) : option R :=
  match z.safeParse (formSchema page now) values with
  | inl data => Some (onSubmit data)
  | inr _ => None
  end.

End FormSchema.

(* ================================================================== *)
(** * What the pages hand to the client on submit *)

(** Modelled from the spec: the declaration of [Oferta]
    ([lib/types/iOferta]) is not among the sources. These are the properties
    of the spec's JobPosting that the pages read, under the names they read
    them by. *)
Module Oferta.
Record t : Type := mk {
  id : jsstring;
  titulo : jsstring;
  descripcion : jsstring;
  empresaConsultora : jsstring;
  categoria_id : jsstring;
  formaPostulacion : jsstring;
  contactoPostulacion : option jsstring;
  fechaPublicacion : jsstring;
  fechaCierre : option jsstring;
  logoUrl : option jsstring;
  habilitado : bool
}.
End Oferta.

(** The two properties of the session the pages read. *)
Record Session : Type := mkSession {
  user_id : jsstring;
  backendToken : jsstring
}.

(** [session?.user.id || ""] and [session?.backendToken || ""]. *)
Definition session_user_id (session : option Session) : jsstring :=
  match session with Some s => user_id s | None => [] end.

Definition session_token (session : option Session) : jsstring :=
  match session with Some s => backendToken s | None => [] end.

Definition formaPostulacion_string (f : FormaPostulacion) : jsstring :=
  match f with MAIL => js "MAIL" | LINK => js "LINK" end.

(** [v || null]: an empty string becomes [null] too. *)
Definition or_null (v : z.maybe jsstring) : option jsstring :=
  match v with
  | z.value s => if str_falsy s then None else Some s
  | _ => None
  end.

(** [v ?? null]. *)
Definition coalesce_null (v : z.maybe jsstring) : option jsstring :=
  match v with
  | z.value s => Some s
  | _ => None
  end.

Section Pages.

Variable Date_parse_other : jsstring -> Date.

(** [updateData] of [EditForm.onSubmit] ([src/unnamed/part_000]). *)
Definition EditForm_updateData (oferta : Oferta.t) (id : jsstring)
    (session : option Session) (existingLogoUrl : option jsstring)
    (data : Form.t) : UpdateData.t :=
  UpdateData.mk
    id
    (Form.titulo data)
    (Form.descripcion data)
    (session_user_id session)
    (Form.empresaConsultora data)
    (if falsy (Form.fechaCierre data) then None
     else match Form.fechaCierre data with
          | z.value s => Some (Date_of_string Date_parse_other s)
          | _ => None
          end)
    (formaPostulacion_string (Form.formaPostulacion data))
    (match Form.formaPostulacion data with
     | MAIL => or_null (Form.emailContacto data)
     | LINK => None
     end)
    (match Form.formaPostulacion data with
     | LINK => or_null (Form.linkPostulacion data)
     | MAIL => None
     end)
    (Form.categoria data)
    (Form.logo data)
    existingLogoUrl
    (Oferta.habilitado oferta).

(** [createData] of [onSubmit] of the create page
    ([src/app/nuevo-aviso/page.tsx]); printing the closing date throws on
    an invalid date. *)
Definition PublicarEmpleo_createData (session : option Session) (data : Form.t)
    : Promise CreateData.t :=
  let build fechaCierre :=
    CreateData.mk
      (Form.titulo data)
      (Form.descripcion data)
      (session_user_id session)
      (Form.empresaConsultora data)
      fechaCierre
      (formaPostulacion_string (Form.formaPostulacion data))
      (match Form.formaPostulacion data with
       | MAIL => coalesce_null (Form.emailContacto data)
       | LINK => None
       end)
      (match Form.formaPostulacion data with
       | LINK => coalesce_null (Form.linkPostulacion data)
       | MAIL => None
       end)
      (Form.categoria data)
      (Form.logo data) in
  match Form.fechaCierre data with
  | z.value s =>
      if str_falsy s then Resolved (build None)
      else
        match toISOString (Date_of_string Date_parse_other s) with
        | Resolved iso => Resolved (build (Some iso))
        | Rejected e => Rejected e
        end
  | _ => Resolved (build None)
  end.

End Pages.

(* ================================================================== *)
(** * A scripted world, to run the client on concrete exchanges *)

(** The clock reads [clock]; each [fetch] settles to the next of [answers],
    and rejects as a failed connection does when there is none left. *)
Record Scripted : Type := mkScripted {
  clock : Z;
  answers : list (Promise Response)
}.

Definition scripted_fetch (req : Request) (w : Scripted) : Promise Response * Scripted :=
  match answers w with
  | [] => (Rejected (ErrorObject "TypeError" (js "Failed to fetch")), w)
  | a :: rest => (a, mkScripted (clock w) rest)
  end.

(* ================================================================== *)
(** * Predicates the properties are stated with *)

(** Channel exclusivity of an ["oferta"] payload for the discriminator
    [forma]: with MAIL the link is [null], with LINK the e-mail is. *)
Definition channel_exclusive (forma : jsstring) (oferta : JSON) : Prop :=
  (forma = js "MAIL" -> JSON_get "linkPostulacion" oferta = Some JNull)
  /\ (forma = js "LINK" -> JSON_get "emailContacto" oferta = Some JNull).

(** What [updateOferta] and [createOferta] do once the body is assembled:
    the request goes to [fetch], a response that is not 2xx is thrown with
    its status and text, the decoded body is returned, and what is thrown
    goes through the [catch] clause, whose message is [unknown]. *)
Definition send (World : Type) (fetch : Request -> World -> Promise Response * World)
    (req : Request) (unknown : jsstring) : World -> Promise JSON * World :=
  try_catch World
    (bind World (fetch req)
       (fun response =>
          bind World (throw_unless_ok World response)
            (fun _ => bind World (await World (json response)) (ret World))))
    (rethrow World unknown).

(** A decoded body that is [null] or a primitive. *)
Definition primitive_or_null (v : JSON) : bool :=
  match v with
  | JNull | JBool _ | JNumber _ | JString _ => true
  | JArray _ | JObject _ => false
  end.

Definition isObject (v : JSON) : bool :=
  match v with JObject _ => true | _ => false end.

(** A schema accepts an input when parsing it leaves no issue. *)
Definition accepts {I O} (schema : z.Schema I O) (data : I) : bool :=
  match z.safeParse schema data with
  | inl _ => true
  | inr _ => false
  end.

Definition issues_of {I O} (schema : z.Schema I O) (path : list string) (data : I)
    : list z.Issue :=
  snd (schema path data).

(** A character that is not white space. *)
Definition nonSpace (c : char16) : bool := negb (isWhiteSpace c).

(** The value of a parse that did not abort. *)
Definition parsed {A} (r : z.SyncParseReturn A) : option A :=
  match r with
  | z.OK v | z.DIRTY v => Some v
  | z.INVALID => None
  end.

(** What the two array-returning and the two object-returning calls do
    with a response, in terms of the check each applies to the body. *)
Definition on_response (malformed : JSON -> bool) (error : Thrown)
    (unknown : jsstring) (r : Response) : Promise JSON :=
  if ok r then
    match json r with
    | Resolved data => if malformed data then Rejected error else Resolved data
    | Rejected e => Rejected (if instanceofError e then e else Error unknown)
    end
  else
    match text r with
    | Resolved body => Rejected (requestFailed (status r) body)
    | Rejected e => Rejected (if instanceofError e then e else Error unknown)
    end.

(** The characters the two company-name classes tell apart. *)
Definition slash : char16 := z.code "/".
Definition comma : char16 := z.code ",".
Definition hyphen : char16 := z.code "-".
Definition enye : char16 := z.code "ñ".
Definition ENYE : char16 := z.code "Ñ".

(** [trim] under [string | null | undefined]. *)
Definition maybe_trim (v : z.maybe jsstring) : z.maybe jsstring :=
  match v with
  | z.undefined => z.undefined
  | z.null => z.null
  | z.value s => z.value (trim s)
  end.

(** What [z.object] makes of a form state: the three names and the link
    trimmed, the rest as it was. *)
Definition object_value (data : Form.t) : Form.t :=
  Form.mk
    (trim (Form.titulo data))
    (trim (Form.descripcion data))
    (trim (Form.empresaConsultora data))
    (Form.categoria data)
    (Form.formaPostulacion data)
    (Form.emailContacto data)
    (maybe_trim (Form.linkPostulacion data))
    (Form.fechaCierre data)
    (Form.logo data).

(** At noon UTC of 2 November 2026. *)
Definition noon_2026_11_02 : Z := 1793620800000.

(** [min] of the date input of the edit page:
    [new Date().toISOString().split("T")[0]], today's date in UTC. *)
Definition EditForm_fechaCierre_min (now : Z) : jsstring := beforeT (isoOfTime now).

(** The value of an [<input type="date">] for the day [d] of month [m] of
    year [y]. *)
Definition isoDate (y m d : Z) : jsstring :=
  pad4 y ++ js "-" ++ pad2 m ++ js "-" ++ pad2 d.

(* ================================================================== *)
(** * Sample exchanges and form states *)

Module Example.

Definition apiUrl : jsstring := js "https://api.madrynempleos.test".

(** A world whose clock reads noon of 2026-11-02 and whose network gives
    the listed answers. *)
Definition world (answers : list (Promise Response)) : Scripted :=
  mkScripted noon_2026_11_02 answers.

Definition noContent : Response :=
  mkResponse 204 (Resolved []) (Rejected (ErrorObject "SyntaxError" (js "Unexpected end of JSON input"))).

Definition notFound : Response :=
  mkResponse 404 (Resolved (js "Oferta no encontrada")) (Rejected (ErrorObject "SyntaxError" (js "Unexpected token"))).

Definition serverError : Response :=
  mkResponse 500 (Resolved (js "Internal Server Error")) (Rejected (ErrorObject "SyntaxError" (js "Unexpected token"))).

(** A posting as the backend sends it. *)
Definition posting : JSON :=
  JObject [(js "id", JString (js "42")); (js "titulo", JString (js "Cocinero/a"))].

(** A 200 whose body decodes to [body]. *)
Definition okWith (body : JSON) : Response :=
  mkResponse 200 (Resolved (js "(the body as JSON text)")) (Resolved body).

(** An update with the channel LINK whose caller also filled the e-mail. *)
Definition update_data : UpdateData.t :=
  UpdateData.mk (js "42") (js "Cocinero/a") (js "Turno noche") (js "u7") (js "ACME S.A.")
    None (js "LINK") (Some (js "rrhh@acme.com")) (Some (js "https://acme.com/empleos"))
    (js "c3") None None true.

Definition update_formData : FormData :=
  [ (js "oferta",
     FormJSON (updateOferta_ofertaData update_data (js "2026-11-02T12:00:00.000Z") JNull));
    (js "logoUrl", FormString (js "null")) ].

(** A creation with the channel MAIL whose caller also filled the link. *)
Definition create_data : CreateData.t :=
  CreateData.mk (js "Cocinero/a") (js "Turno noche") (js "u7") (js "ACME S.A.")
    None (js "MAIL") (Some (js "rrhh@acme.com")) (Some (js "https://acme.com/empleos"))
    (js "c3") None.

(** A host that takes every e-mail for valid, no string for a URL, and
    every string that is not a date-only date for an invalid date. *)
Definition emailRegex_test (s : jsstring) : bool := true.
Definition URL_canParse (s : jsstring) : bool := false.
Definition Date_parse_other (s : jsstring) : Date := None.

(** The form of the create page with the channel LINK, the link left
    empty and an e-mail typed in. *)
Definition link_missing : Form.t :=
  Form.mk (js "Cocinero/a") (js "Turno noche") (js "ACME S.A.") (js "c3")
    LINK (z.value (js "rrhh@acme.com")) (z.value []) z.null None.

(** A form that closes on 2026-11-02. *)
Definition closes_today : Form.t :=
  Form.mk (js "Cocinero/a") (js "Turno noche") (js "ACME S.A.") (js "c3")
    MAIL (z.value (js "rrhh@acme.com")) z.null (z.value (js "2026-11-02")) None.

Definition posting_record : Oferta.t :=
  Oferta.mk (js "42") (js "Cocinero/a") (js "Turno noche") (js "ACME S.A.") (js "c3")
    (js "MAIL") (Some (js "rrhh@acme.com")) (js "2025-03-01T09:30:00.000Z") None None true.

(** The same posting, had it been published on 1999-12-31. *)
Definition posting_record_1999 : Oferta.t :=
  Oferta.mk (js "42") (js "Cocinero/a") (js "Turno noche") (js "ACME S.A.") (js "c3")
    (js "MAIL") (Some (js "rrhh@acme.com")) (js "1999-12-31T00:00:00.000Z") None None true.

Definition png (size : N) : File := mkFile (js "logo.png") size (js "image/png").

Definition gif : File := mkFile (js "logo.gif") 1024 (js "image/gif").

End Example.

(* ================================================================== *)
(** * The rest of the client and of the pages *)

(** ** [enableOfertaAdmin] ([src/lib/api/ofertas.ts]) *)

Section AdminClient.

Variable apiUrl : jsstring.
Variable World : Type.
Variable fetch : Request -> World -> Promise Response * World.

Definition enableOfertaAdmin (id token : jsstring) : World -> Promise unit * World :=
  try_catch World
    (bind World
       (fetch (mkRequest (apiUrl ++ js "/api/admin/ofertas/habilitar/" ++ id) POST
                 (jsonHeaders ++ [bearer token]) None))
       (fun response => throw_unless_ok World response))
    (rethrow World (js "Error desconocido al habilitar oferta con ID " ++ id)).

End AdminClient.

(** ** [createMessage] ([src/lib/api/contactar.ts]) *)

Module Mensaje.
Record t : Type := mk {
  nombre : jsstring;
  apellido : jsstring;
  email : jsstring;
  mensaje : jsstring
}.
End Mensaje.

(** A request whose body is [JSON.stringify(v)], kept as the value [v]. *)
Module JsonRequest.
Record t : Type := mk {
  url : jsstring;
  method : Method;
  headers : list (string * jsstring);
  body : JSON
}.
End JsonRequest.

Section ContactClient.

Variable apiUrl : jsstring.
Variable World : Type.
Variable fetch : JsonRequest.t -> World -> Promise Response * World.

Definition createMessage_request (data : Mensaje.t) : JsonRequest.t :=
  JsonRequest.mk (apiUrl ++ js "/api/contacto") POST jsonHeaders
    (JObject
       [ (js "nombre", JString (Mensaje.nombre data));
         (js "apellido", JString (Mensaje.apellido data));
         (js "email", JString (Mensaje.email data));
         (js "mensaje", JString (Mensaje.mensaje data)) ]).

(** No [try]/[catch] here: the text is read before the status is looked
    at, and whatever is thrown goes out as it is. *)
Definition createMessage (data : Mensaje.t) : World -> Promise jsstring * World :=
  bind World
    (fetch (createMessage_request data))
    (fun response =>
       bind World (await World (text response))
         (fun responseText =>
            if negb (ok response)
            then throw World (requestFailed (status response) responseText)
            else ret World responseText)).

End ContactClient.

(** ** [generateMetadata] ([src/app/detalles-empleo/[id]/metadata.ts]) *)

(** [String(v)] for a decoded JSON value, as a template literal prints it:
    an array prints its items joined by commas, [null] items as nothing. *)
Fixpoint ToString (v : JSON) : jsstring :=
  match v with
  | JNull => js "null"
  | JBool true => js "true"
  | JBool false => js "false"
  | JNumber n => Number_toString n
  | JString s => s
  | JArray items =>
      (fix join (l : list JSON) : jsstring :=
         match l with
         | [] => []
         | x :: rest =>
             (match x with JNull => [] | _ => ToString x end)
               ++ match rest with [] => [] | _ => js "," ++ join rest end
         end) items
  | JObject _ => js "[object Object]"
  end.

(** [`${o.k}`]: a property that is not there prints as ["undefined"]. *)
Definition print (v : option JSON) : jsstring :=
  match v with
  | None => js "undefined"
  | Some x => ToString x
  end.

(** [o.k ? ... : ...]: whether the property is truthy. *)
Definition truthy (v : option JSON) : bool :=
  match v with
  | None => false
  | Some JNull => false
  | Some (JBool b) => b
  | Some (JNumber n) => negb (n =? 0)
  | Some (JString s) => negb (str_falsy s)
  | Some (JArray _) => true
  | Some (JObject _) => true
  end.

Module Metadata.
Record Image : Type := mkImage {
  url : jsstring;
  width : Z;
  height : Z;
  alt : jsstring
}.
Record OpenGraph : Type := mkOpenGraph {
  og_title : jsstring;
  og_description : jsstring;
  og_url : jsstring;
  siteName : jsstring;
  images : list Image;
  locale : jsstring;
  type : jsstring
}.
Record Twitter : Type := mkTwitter {
  card : jsstring;
  tw_title : jsstring;
  tw_description : jsstring;
  tw_images : jsstring
}.
Record t : Type := mk {
  title : jsstring;
  description : jsstring;
  openGraph : OpenGraph;
  twitter : Twitter
}.
End Metadata.

(** The object [generateMetadata] returns for the posting [oferta] it
    fetched. *)
Definition metadata_of (apiUrl : jsstring) (id : jsstring) (oferta : JSON) : Metadata.t :=
  let title :=
    print (JSON_get "titulo" oferta) ++ js " - "
      ++ print (JSON_get "empresaConsultora" oferta) ++ js " | Madryn Empleos" in
  let description :=
    js "Oferta laboral para " ++ print (JSON_get "titulo" oferta) ++ js " en "
      ++ print (JSON_get "empresaConsultora" oferta)
      ++ js ", Puerto Madryn, Chubut, Argentina. Postúlate ahora en Madryn Empleos." in
  Metadata.mk title description
    (Metadata.mkOpenGraph title description
       (js "https://www.madrynempleos.com/detalles-empleo/" ++ id)
       (js "Madryn Empleos")
       [ Metadata.mkImage
           (if truthy (JSON_get "logoUrl" oferta)
            then apiUrl ++ print (JSON_get "logoUrl" oferta)
            else js "/lib/logo.jpeg")
           1200 630
           (js "Logo de " ++ print (JSON_get "empresaConsultora" oferta)) ]
       (js "es_AR") (js "website"))
    (Metadata.mkTwitter (js "summary_large_image") title description
       (if truthy (JSON_get "logoUrl" oferta)
        then apiUrl ++ print (JSON_get "logoUrl" oferta)
        else js "/lib/logo.jpeg")).

Section MetadataPage.

Variable apiUrl : jsstring.
Variable World : Type.
Variable fetch : Request -> World -> Promise Response * World.

Definition generateMetadata (id : jsstring) : World -> Promise Metadata.t * World :=
  bind World (fetchOfertaById apiUrl World fetch id)
    (fun oferta => ret World (metadata_of apiUrl id oferta)).

End MetadataPage.

(** ** The edit form ([src/unnamed/part_000]) *)

Section EditFormState.

Variable Date_parse_other : jsstring -> Date.

(** [defaultValues.fechaCierre]:
    [oferta.fechaCierre ? new Date(oferta.fechaCierre).toISOString().split("T")[0] : null]. *)
Definition EditForm_default_fechaCierre (fechaCierre : option jsstring)
    : Promise (z.maybe jsstring) :=
  match fechaCierre with
  | None => Resolved z.null
  | Some s =>
      if str_falsy s then Resolved z.null
      else
        match toISOString (Date_of_string Date_parse_other s) with
        | Resolved iso => Resolved (z.value (beforeT iso))
        | Rejected e => Rejected e
        end
  end.

End EditFormState.

(** [onValueChange] of the channel radio group of the edit page: the field
    of the channel left behind is set to [null]. *)
Definition EditForm_onFormaPostulacionChange (value : FormaPostulacion) (form : Form.t)
    : Form.t :=
  Form.mk
    (Form.titulo form) (Form.descripcion form) (Form.empresaConsultora form)
    (Form.categoria form)
    value
    (match value with MAIL => Form.emailContacto form | LINK => z.null end)
    (match value with MAIL => z.null | LINK => Form.linkPostulacion form end)
    (Form.fechaCierre form) (Form.logo form).

(** [s.split(sep)] for a one-character separator. *)
Fixpoint split (sep : char16) (s : jsstring) : list jsstring :=
  match s with
  | [] => [[]]
  | c :: s' =>
      if (c =? sep)%N then [] :: split sep s'
      else
        match split sep s' with
        | seg :: rest => (c :: seg) :: rest
        | [] => [[c]]
        end
  end.

(** The name shown for the logo in place: [existingLogoUrl.split("_").pop()]. *)
Definition EditForm_logo_name (existingLogoUrl : jsstring) : jsstring :=
  last (split (z.code "_") existingLogoUrl) [].

(** ** Predicates for the properties of this part *)

(** A call that, when it rejects, rejects with an [Error] object. *)
Definition only_errors {World A} (call : World -> Promise A * World) : Prop :=
  forall w e w', call w = (Rejected e, w') -> instanceofError e = true.

(** What the [catch] clause makes of a thrown value. *)
Definition surfaced {A} (unknown : jsstring) (e : Thrown) : Promise A :=
  Rejected (if instanceofError e then e else Error unknown).

(** The status-only contract of the two admin calls on a response. *)
Definition by_status {World} (r : Response) (w' : World)
    (result : Promise unit * World) : Prop :=
  (ok r = true -> result = (Resolved tt, w'))
  /\ (ok r = false -> forall body, text r = Resolved body ->
        result = (Rejected (requestFailed (status r) body), w')).

(** A parse whose status is valid. *)
Definition is_OK {A} (r : z.SyncParseReturn A) : bool :=
  match r with
  | z.OK _ => true
  | _ => false
  end.

(** A name (title, company): some character that is not white space, at
    most [limit] code units as typed, and, once trimmed, only characters of
    the class. *)
Definition name_ok (limit : nat) (cls : list z.ClassAtom) (s : jsstring) : bool :=
  existsb nonSpace s && (List.length s <=? limit)%nat
  && forallb (z.class_mem cls) (trim s).

Definition text_ok (limit : nat) (s : jsstring) : bool :=
  existsb nonSpace s && (List.length s <=? limit)%nat.

(** A value that is absent ([null] or [undefined]) or passes [test]. *)
Definition absent_or (test : jsstring -> bool) (v : z.maybe jsstring) : bool :=
  match v with
  | z.value s => test s
  | _ => true
  end.

(** A string with some character that is not white space. *)
Definition present (v : z.maybe jsstring) : bool :=
  match v with
  | z.value s => existsb nonSpace s
  | _ => false
  end.

(** The form states that are submitted, said without zod. *)
Definition form_ok (emailRegex_test URL_canParse : jsstring -> bool)
    (Date_parse_other : jsstring -> Date) (page : Page) (now : Z) (values : Form.t)
    : bool :=
  name_ok 150 titulo_class (Form.titulo values)
  && text_ok 5000 (Form.descripcion values)
  && name_ok 150 (empresaConsultora_class page) (Form.empresaConsultora values)
  && negb (str_falsy (Form.categoria values))
  && absent_or emailRegex_test (Form.emailContacto values)
  && absent_or URL_canParse (Form.linkPostulacion values)
  && logo_size_ok (Form.logo values) && logo_type_ok (Form.logo values)
  && match Form.formaPostulacion values with
     | MAIL => present (Form.emailContacto values)
     | LINK => present (Form.linkPostulacion values)
     end
  && fechaCierre_not_past Date_parse_other now values.

(** The contact of the selected channel, as sent. *)
Definition contact_of (values : Form.t) : z.maybe jsstring :=
  match Form.formaPostulacion values with
  | MAIL => Form.emailContacto values
  | LINK => maybe_trim (Form.linkPostulacion values)
  end.

(** The members of an ["oferta"] payload for the two channels. *)
Definition payload_contact (forma : FormaPostulacion) (oferta : JSON) : option JSON :=
  match forma with
  | MAIL => JSON_get "emailContacto" oferta
  | LINK => JSON_get "linkPostulacion" oferta
  end.

Definition payload_other (forma : FormaPostulacion) (oferta : JSON) : option JSON :=
  match forma with
  | MAIL => JSON_get "linkPostulacion" oferta
  | LINK => JSON_get "emailContacto" oferta
  end.

(** ** More sample values *)

Module Example2.

Definition mensaje : Mensaje.t :=
  Mensaje.mk (js "Ana") (js "Pérez") (js "ana@example.com") (js "Hola").

(** A network for [createMessage], scripted as [scripted_fetch] is. *)
Definition scripted_fetch_json (req : JsonRequest.t) (w : Scripted)
    : Promise Response * Scripted :=
  match answers w with
  | [] => (Rejected (ErrorObject "TypeError" (js "Failed to fetch")), w)
  | a :: rest => (a, mkScripted (clock w) rest)
  end.

Definition okText (body : jsstring) : Response :=
  mkResponse 200 (Resolved body) (Rejected (ErrorObject "SyntaxError" (js "Unexpected token"))).

(** A 200 whose body is not JSON. *)
Definition okNotJson : Response := okText (js "<html>").

Definition posting_with_logo : JSON :=
  JObject [ (js "id", JString (js "42")); (js "titulo", JString (js "Cocinero/a"));
            (js "empresaConsultora", JString (js "ACME"));
            (js "logoUrl", JString (js "/uploads/17_acme.png")) ].

(** A valid form of the create page with the channel MAIL. *)
Definition valid_mail : Form.t :=
  Form.mk (js " Cocinero/a ") (js "Turno noche") (js "ACME S.A.") (js "c3")
    MAIL (z.value (js "rrhh@acme.com")) z.null z.null None.

(** A form with the channel LINK and a link, in which an e-mail typed
    earlier is still there. *)
Definition link_with_stale_email : Form.t :=
  Form.mk (js "Cocinero/a") (js "Turno noche") (js "ACME S.A.") (js "c3")
    LINK (z.value (js "rrhh@")) (z.value (js "https://acme.com/empleos")) z.null None.

(** A host that takes for an e-mail a string with a dot, for a URL a string
    with a colon, and parses no date but the date-only ones. *)
Definition emailRegex_test (s : jsstring) : bool := existsb (N.eqb 46) s.
Definition URL_canParse (s : jsstring) : bool := existsb (N.eqb 58) s.

(** A form with the channel MAIL and an e-mail, in which a link typed
    earlier is still there. *)
Definition mail_with_stale_link : Form.t :=
  Form.mk (js "Cocinero/a") (js "Turno noche") (js "ACME S.A.") (js "c3")
    MAIL (z.value (js "rrhh@acme.com")) (z.value (js "acme")) z.null None.

(** A form whose closing date is not a date. *)
Definition closes_never : Form.t :=
  Form.mk (js "Cocinero/a") (js "Turno noche") (js "ACME S.A.") (js "c3")
    MAIL (z.value (js "rrhh@acme.com")) z.null (z.value (js "pronto")) None.

End Example2.

(* ================================================================== *)
(** * The JavaScript model on known values *)

Example js_decodes_utf8 : js "año" = [97; 241; 111]%N.
Proof. reflexivity. Qed.

Example trim_both_ends : trim (js "  hola mundo  ") = js "hola mundo".
Proof. reflexivity. Qed.

Example trim_no_break_space : trim [160; 97; 8232]%N = [97]%N.
Proof. reflexivity. Qed.

Example Number_toString_404 : Number_toString 404 = js "404".
Proof. reflexivity. Qed.

Example isoOfTime_epoch : isoOfTime 0 = js "1970-01-01T00:00:00.000Z".
Proof. vm_compute. reflexivity. Qed.

Example isoOfTime_before_epoch : isoOfTime (-1) = js "1969-12-31T23:59:59.999Z".
Proof. vm_compute. reflexivity. Qed.

Example isoOfTime_noon : isoOfTime noon_2026_11_02 = js "2026-11-02T12:00:00.000Z".
Proof. vm_compute. reflexivity. Qed.

Example isoOfTime_year_10000 :
  isoOfTime 253402300800000 = js "+010000-01-01T00:00:00.000Z".
Proof. vm_compute. reflexivity. Qed.

Example parseDateOnly_leap_day : parseDateOnly (js "2024-02-29") = Some 1709164800000.
Proof. vm_compute. reflexivity. Qed.

Example parseDateOnly_no_such_day : parseDateOnly (js "2023-02-29") = None.
Proof. vm_compute. reflexivity. Qed.

Example typeof_array : typeof (JArray []) = "object"%string.
Proof. reflexivity. Qed.

(* ================================================================== *)
(** * Properties of the API client *)

Section ClientProperties.

Variable apiUrl : jsstring.
Variable World : Type.
Variable fetch : Request -> World -> Promise Response * World.
Variable Date_now : World -> Z.

Lemma ok_404 (r : Response) : status r = 404 -> ok r = false.
Proof. unfold ok. intros ->. reflexivity. Qed.

Lemma instanceofError_requestFailed st body :
  instanceofError (requestFailed st body) = true.
Proof. reflexivity. Qed.

(** What [deleteOferta] does with the response it receives. *)
Lemma deleteOferta_responded id token w r w' :
  fetch (deleteOferta_request apiUrl id token) w = (Resolved r, w') ->
  deleteOferta apiUrl World fetch id token w =
    if ok r then (Resolved tt, w')
    else if status r =? 404 then (Resolved tt, w')
    else match text r with
         | Resolved body => (Rejected (requestFailed (status r) body), w')
         | Rejected e =>
             (Rejected (if instanceofError e then e
                        else Error (js "Error desconocido al eliminar oferta con ID " ++ id)),
              w')
         end.
Proof.
  intros Hfetch.
  unfold deleteOferta, try_catch, bind. rewrite Hfetch.
  destruct (ok r); cbn; [reflexivity|].
  destruct (status r =? 404); cbn; [reflexivity|].
  unfold await, throw, rethrow, bind.
  destruct (text r) as [body|e]; reflexivity.
Qed.


Ltac run_client Hfetch :=
  unfold try_catch, bind, throw_unless_ok, throw_if, on_response;
  rewrite Hfetch;
  match goal with
  | |- context [ok ?r] => destruct (ok r); cbn
  end;
  unfold await, throw, rethrow, ret, bind;
  match goal with
  | |- context [text ?r] => destruct (text r); try reflexivity
  | |- context [json ?r] => destruct (json r) as [data|]; try reflexivity
  end;
  try match goal with
  | |- context [if ?c then _ else _] => destruct c; reflexivity
  end.

Lemma fetchOfertas_responded w r w' :
  fetch (mkRequest (apiUrl ++ js "/api/ofertas") GET jsonHeaders None) w
    = (Resolved r, w') ->
  fetchOfertas apiUrl World fetch w =
    (on_response (fun data => negb (Array_isArray data)) notAnArray
       (js "Error desconocido al obtener ofertas") r, w').
Proof. intros Hfetch. unfold fetchOfertas. run_client Hfetch. Qed.

Lemma fetchOfertaById_responded id w r w' :
  fetch (mkRequest (apiUrl ++ js "/api/ofertas/" ++ id) GET jsonHeaders None) w
    = (Resolved r, w') ->
  fetchOfertaById apiUrl World fetch id w =
    (on_response (fun data => negb (typeof data =? "object")%string || isNull data)
       notAnObject (js "Error desconocido al obtener oferta con ID " ++ id) r, w').
Proof. intros Hfetch. unfold fetchOfertaById. run_client Hfetch. Qed.

Lemma fetchOfertaBySlug_responded slug w r w' :
  fetch (mkRequest (apiUrl ++ js "/api/ofertas/detalles/" ++ slug) GET jsonHeaders None) w
    = (Resolved r, w') ->
  fetchOfertaBySlug apiUrl World fetch slug w =
    (on_response (fun data => negb (typeof data =? "object")%string || isNull data)
       notAnObject (js "Error desconocido al obtener oferta con slug " ++ slug) r, w').
Proof. intros Hfetch. unfold fetchOfertaBySlug. run_client Hfetch. Qed.

(** C5. On a 2xx response whose decoded body is not an array,
    [fetchOfertas] rejects with the not-a-valid-array error and returns
    nothing; when the body is an array, it resolves with that array, its
    items in the order the backend sent them. *)
Theorem fetchOfertas_array_or_malformed w r w' data :
  fetch (mkRequest (apiUrl ++ js "/api/ofertas") GET jsonHeaders None) w
    = (Resolved r, w') ->
  ok r = true ->
  json r = Resolved data ->
  (Array_isArray data = false ->
     fetchOfertas apiUrl World fetch w = (Rejected notAnArray, w'))
  /\ (forall items, data = JArray items ->
        fetchOfertas apiUrl World fetch w = (Resolved (JArray items), w')).
Proof.
  intros Hfetch Hok Hjson.
  rewrite (fetchOfertas_responded w r w' Hfetch).
  unfold on_response. rewrite Hok, Hjson. split.
  - intros ->. reflexivity.
  - intros items ->. reflexivity.
Qed.


(** The body [updateOferta] assembles: it starts with the ["oferta"] part,
    stamped with the clock, unless the closing date is an invalid [Date]. *)
Lemma updateOferta_formData_built (data : UpdateData.t) w :
  (UpdateData.fechaCierre data = Some None
   /\ updateOferta_formData World Date_now data w
      = (Rejected (ErrorObject "RangeError" (js "Invalid time value")), w))
  \/ (exists fechaCierre rest,
        updateOferta_formData World Date_now data w
        = (Resolved
             ((js "oferta",
               FormJSON (updateOferta_ofertaData data (isoOfTime (Date_now w)) fechaCierre))
                :: rest), w)).
Proof.
  unfold updateOferta_formData, bind, new_Date, await, ret, append. cbn.
  destruct (UpdateData.fechaCierre data) as [[t|]|]; cbn.
  - right. destruct (UpdateData.logo data); cbn; eauto.
  - left. split; reflexivity.
  - right. destruct (UpdateData.logo data); cbn; eauto.
Qed.

Lemma createOferta_formData_built (data : CreateData.t) w :
  exists rest,
    createOferta_formData World Date_now data w
    = (Resolved
         ((js "oferta",
           FormJSON (createOferta_ofertaData data (isoOfTime (Date_now w))))
            :: rest), w).
Proof.
  unfold createOferta_formData, bind, new_Date, await, ret, append. cbn.
  destruct (CreateData.logo data); cbn; eauto.
Qed.

Lemma oferta_part_first v rest :
  oferta_part ((js "oferta", FormJSON v) :: rest) = Some v.
Proof. reflexivity. Qed.

(** The assembled body is the one handed to [fetch]. *)
Lemma updateOferta_sends (data : UpdateData.t) token w :
  updateOferta apiUrl World fetch Date_now data token w =
  match updateOferta_formData World Date_now data w with
  | (Resolved formData, w1) =>
      try_catch World
        (bind World
           (fetch (mkRequest (apiUrl ++ js "/api/ofertas/" ++ UpdateData.id data)
                     PUT [bearer token] (Some formData)))
           (fun response =>
              bind World (throw_unless_ok World response)
                (fun _ => bind World (await World (json response)) (ret World))))
        (rethrow World (js "Error desconocido al actualizar oferta con ID "
                          ++ UpdateData.id data)) w1
  | (Rejected e, w1) =>
      rethrow World (js "Error desconocido al actualizar oferta con ID "
                       ++ UpdateData.id data) e w1
  end.
Proof.
  unfold updateOferta, try_catch, bind at 1.
  destruct (updateOferta_formData World Date_now data w) as [[fd|e] w1]; reflexivity.
Qed.

Lemma createOferta_sends (data : CreateData.t) token w :
  createOferta apiUrl World fetch Date_now data token w =
  match createOferta_formData World Date_now data w with
  | (Resolved formData, w1) =>
      try_catch World
        (bind World
           (fetch (mkRequest (apiUrl ++ js "/api/ofertas") POST [bearer token]
                     (Some formData)))
           (fun response =>
              bind World (throw_unless_ok World response)
                (fun _ => bind World (await World (json response)) (ret World))))
        (rethrow World (js "Error desconocido al crear oferta")) w1
  | (Rejected e, w1) => rethrow World (js "Error desconocido al crear oferta") e w1
  end.
Proof.
  unfold createOferta, try_catch, bind at 1.
  destruct (createOferta_formData World Date_now data w) as [[fd|e] w1]; reflexivity.
Qed.

(** Every call of [updateOferta] either hands to [fetch] the PUT request
    with the body it assembled, or, when the closing date is an invalid
    [Date], throws before it calls [fetch]. *)
Lemma updateOferta_call (data : UpdateData.t) token w :
  (exists fechaCierre rest,
      updateOferta_formData World Date_now data w
      = (Resolved
           ((js "oferta",
             FormJSON (updateOferta_ofertaData data (isoOfTime (Date_now w)) fechaCierre))
              :: rest), w)
      /\ updateOferta apiUrl World fetch Date_now data token w
         = send World fetch
             (mkRequest (apiUrl ++ js "/api/ofertas/" ++ UpdateData.id data) PUT
                [bearer token]
                (Some ((js "oferta",
                        FormJSON (updateOferta_ofertaData data (isoOfTime (Date_now w))
                                    fechaCierre))
                         :: rest)))
             (js "Error desconocido al actualizar oferta con ID " ++ UpdateData.id data) w)
  \/ (UpdateData.fechaCierre data = Some None
      /\ updateOferta apiUrl World fetch Date_now data token w
         = (Rejected (ErrorObject "RangeError" (js "Invalid time value")), w)).
Proof.
  destruct (updateOferta_formData_built data w) as [[Hinv Hrej] | (cierre & rest & Hres)].
  - right. split; [exact Hinv|]. rewrite updateOferta_sends, Hrej. reflexivity.
  - left. exists cierre, rest. split; [exact Hres|].
    rewrite updateOferta_sends, Hres. reflexivity.
Qed.

(** Every call of [createOferta] hands to [fetch] the POST request with the
    body it assembled. *)
Lemma createOferta_call (data : CreateData.t) token w :
  exists rest,
    createOferta_formData World Date_now data w
    = (Resolved
         ((js "oferta", FormJSON (createOferta_ofertaData data (isoOfTime (Date_now w))))
            :: rest), w)
    /\ createOferta apiUrl World fetch Date_now data token w
       = send World fetch
           (mkRequest (apiUrl ++ js "/api/ofertas") POST [bearer token]
              (Some ((js "oferta",
                      FormJSON (createOferta_ofertaData data (isoOfTime (Date_now w))))
                       :: rest)))
           (js "Error desconocido al crear oferta") w.
Proof.
  destruct (createOferta_formData_built data w) as (rest & Hres).
  exists rest. split; [exact Hres|].
  rewrite createOferta_sends, Hres. reflexivity.
Qed.

Lemma update_channel_exclusive (data : UpdateData.t) pub cierre :
  channel_exclusive (UpdateData.formaPostulacion data)
    (updateOferta_ofertaData data pub cierre).
Proof.
  unfold channel_exclusive, updateOferta_ofertaData.
  split; intros ->; reflexivity.
Qed.

Lemma create_channel_exclusive (data : CreateData.t) pub :
  channel_exclusive (CreateData.formaPostulacion data)
    (createOferta_ofertaData data pub).
Proof.
  unfold channel_exclusive, createOferta_ofertaData.
  split; intros ->; reflexivity.
Qed.

(** C1. Whatever the caller put in [emailContacto] and [linkPostulacion],
    the request that [updateOferta] and [createOferta] hand to [fetch]
    carries the body they assembled, whose ["oferta"] part has
    [linkPostulacion] null when [formaPostulacion] is "MAIL" and
    [emailContacto] null when it is "LINK". ([updateOferta] hands nothing to
    [fetch] only when the closing date is an invalid [Date]: it then throws
    the [RangeError] of [toISOString] whatever [fetch] is.) *)
Theorem oferta_payload_channel_exclusive :
  (forall (data : UpdateData.t) token w,
      (exists formData oferta,
          updateOferta_formData World Date_now data w = (Resolved formData, w)
          /\ updateOferta apiUrl World fetch Date_now data token w
             = send World fetch
                 (mkRequest (apiUrl ++ js "/api/ofertas/" ++ UpdateData.id data) PUT
                    [bearer token] (Some formData))
                 (js "Error desconocido al actualizar oferta con ID "
                    ++ UpdateData.id data) w
          /\ oferta_part formData = Some oferta
          /\ channel_exclusive (UpdateData.formaPostulacion data) oferta)
      \/ (UpdateData.fechaCierre data = Some None
          /\ updateOferta apiUrl World fetch Date_now data token w
             = (Rejected (ErrorObject "RangeError" (js "Invalid time value")), w)))
  /\ (forall (data : CreateData.t) token w,
        exists formData oferta,
          createOferta_formData World Date_now data w = (Resolved formData, w)
          /\ createOferta apiUrl World fetch Date_now data token w
             = send World fetch
                 (mkRequest (apiUrl ++ js "/api/ofertas") POST [bearer token]
                    (Some formData))
                 (js "Error desconocido al crear oferta") w
          /\ oferta_part formData = Some oferta
          /\ channel_exclusive (CreateData.formaPostulacion data) oferta).
Proof.
  split.
  - intros data token w.
    destruct (updateOferta_call data token w)
      as [(cierre & rest & Hbuilt & Hcall) | Hinvalid]; [left | right; exact Hinvalid].
    do 2 eexists. split; [exact Hbuilt|]. split; [exact Hcall|].
    split; [apply oferta_part_first | apply update_channel_exclusive].
  - intros data token w.
    destruct (createOferta_call data token w) as (rest & Hbuilt & Hcall).
    do 2 eexists. split; [exact Hbuilt|]. split; [exact Hcall|].
    split; [apply oferta_part_first | apply create_channel_exclusive].
Qed.

(** C10. Every call of [updateOferta] hands to [fetch] a request whose
    ["oferta"] part carries, as [fechaPublicacion], the clock of the call
    printed by [toISOString] (the call hands nothing to [fetch] only when
    the closing date is an invalid [Date]); and nothing of the posting being
    edited except [habilitado] reaches the call, so its original publication
    date does not: the call of the edit page is the same call whatever that
    date was. *)
Theorem updateOferta_stamps_fechaPublicacion :
  (forall (data : UpdateData.t) token w,
      (exists formData oferta,
          updateOferta_formData World Date_now data w = (Resolved formData, w)
          /\ updateOferta apiUrl World fetch Date_now data token w
             = send World fetch
                 (mkRequest (apiUrl ++ js "/api/ofertas/" ++ UpdateData.id data) PUT
                    [bearer token] (Some formData))
                 (js "Error desconocido al actualizar oferta con ID "
                    ++ UpdateData.id data) w
          /\ oferta_part formData = Some oferta
          /\ JSON_get "fechaPublicacion" oferta
             = Some (JString (isoOfTime (Date_now w))))
      \/ (UpdateData.fechaCierre data = Some None
          /\ updateOferta apiUrl World fetch Date_now data token w
             = (Rejected (ErrorObject "RangeError" (js "Invalid time value")), w)))
  /\ (forall parse (oferta oferta' : Oferta.t) id session existingLogoUrl form token w,
        Oferta.habilitado oferta' = Oferta.habilitado oferta ->
        updateOferta_formData World Date_now
          (EditForm_updateData parse oferta' id session existingLogoUrl form) w
        = updateOferta_formData World Date_now
            (EditForm_updateData parse oferta id session existingLogoUrl form) w
        /\ updateOferta apiUrl World fetch Date_now
             (EditForm_updateData parse oferta' id session existingLogoUrl form) token w
           = updateOferta apiUrl World fetch Date_now
               (EditForm_updateData parse oferta id session existingLogoUrl form) token w).
Proof.
  split.
  - intros data token w.
    destruct (updateOferta_call data token w)
      as [(cierre & rest & Hbuilt & Hcall) | Hinvalid]; [left | right; exact Hinvalid].
    do 2 eexists. split; [exact Hbuilt|]. split; [exact Hcall|].
    split; [apply oferta_part_first | reflexivity].
  - intros parse oferta oferta' id session existingLogoUrl form token w Hhab.
    unfold EditForm_updateData. rewrite Hhab. split; reflexivity.
Qed.

End ClientProperties.

(** ** The client on sample exchanges *)


(** The message of that error: the status and the body text. *)
Lemma requestFailed_500_message :
  requestFailed 500 (js "Internal Server Error")
  = Error (js "Error 500: Internal Server Error").
Proof. vm_compute. reflexivity. Qed.

(** A posting object where the list is expected, and a list. *)
Lemma fetchOfertas_array_or_malformed_witness :
  fetchOfertas Example.apiUrl Scripted scripted_fetch
    (Example.world [Resolved (Example.okWith Example.posting)])
  = (Rejected notAnArray, Example.world [])
  /\ fetchOfertas Example.apiUrl Scripted scripted_fetch
       (Example.world [Resolved (Example.okWith (JArray [Example.posting; JNull]))])
     = (Resolved (JArray [Example.posting; JNull]), Example.world []).
Proof.
  split.
  - apply (fetchOfertas_array_or_malformed Example.apiUrl Scripted scripted_fetch
             (Example.world [Resolved (Example.okWith Example.posting)])
             (Example.okWith Example.posting) (Example.world []) Example.posting);
      reflexivity.
  - apply (fetchOfertas_array_or_malformed Example.apiUrl Scripted scripted_fetch
             (Example.world [Resolved (Example.okWith (JArray [Example.posting; JNull]))])
             (Example.okWith (JArray [Example.posting; JNull])) (Example.world [])
             (JArray [Example.posting; JNull]));
      reflexivity.
Defined.



(** The sample update has the channel LINK and an e-mail filled in: the
    e-mail is null in what is handed to the network. The sample creation is
    the converse. *)
Lemma oferta_payload_channel_exclusive_witness :
  (exists formData oferta,
      updateOferta_formData Scripted clock Example.update_data (Example.world [])
      = (Resolved formData, Example.world [])
      /\ updateOferta Example.apiUrl Scripted scripted_fetch clock Example.update_data
           (js "token") (Example.world [])
         = send Scripted scripted_fetch
             (mkRequest (Example.apiUrl ++ js "/api/ofertas/"
                           ++ UpdateData.id Example.update_data) PUT
                [bearer (js "token")] (Some formData))
             (js "Error desconocido al actualizar oferta con ID "
                ++ UpdateData.id Example.update_data) (Example.world [])
      /\ oferta_part formData = Some oferta
      /\ channel_exclusive (UpdateData.formaPostulacion Example.update_data) oferta)
  /\ (exists formData oferta,
        createOferta_formData Scripted clock Example.create_data (Example.world [])
        = (Resolved formData, Example.world [])
        /\ createOferta Example.apiUrl Scripted scripted_fetch clock Example.create_data
             (js "token") (Example.world [])
           = send Scripted scripted_fetch
               (mkRequest (Example.apiUrl ++ js "/api/ofertas") POST
                  [bearer (js "token")] (Some formData))
               (js "Error desconocido al crear oferta") (Example.world [])
        /\ oferta_part formData = Some oferta
        /\ channel_exclusive (CreateData.formaPostulacion Example.create_data) oferta).
Proof.
  destruct (oferta_payload_channel_exclusive Example.apiUrl Scripted scripted_fetch clock)
    as [Hupdate Hcreate].
  split.
  - destruct (Hupdate Example.update_data (js "token") (Example.world []))
      as [Hsent | [Hinvalid _]]; [exact Hsent | discriminate Hinvalid].
  - exact (Hcreate Example.create_data (js "token") (Example.world [])).
Defined.

(** The sample update, made at noon of 2026-11-02, hands to the network a
    body stamped with that instant; and the sample posting was published on
    2025-03-01, but its update is the same call whatever that date was. *)
Lemma updateOferta_stamps_fechaPublicacion_witness :
  (exists formData oferta,
      updateOferta_formData Scripted clock Example.update_data (Example.world [])
      = (Resolved formData, Example.world [])
      /\ updateOferta Example.apiUrl Scripted scripted_fetch clock Example.update_data
           (js "token") (Example.world [])
         = send Scripted scripted_fetch
             (mkRequest (Example.apiUrl ++ js "/api/ofertas/"
                           ++ UpdateData.id Example.update_data) PUT
                [bearer (js "token")] (Some formData))
             (js "Error desconocido al actualizar oferta con ID "
                ++ UpdateData.id Example.update_data) (Example.world [])
      /\ oferta_part formData = Some oferta
      /\ JSON_get "fechaPublicacion" oferta
         = Some (JString (isoOfTime (clock (Example.world [])))))
  /\ isoOfTime (clock (Example.world [])) = js "2026-11-02T12:00:00.000Z"
  /\ updateOferta Example.apiUrl Scripted scripted_fetch clock
       (EditForm_updateData Example.Date_parse_other Example.posting_record_1999
          (js "42") None None Example.closes_today) (js "token") (Example.world [])
     = updateOferta Example.apiUrl Scripted scripted_fetch clock
         (EditForm_updateData Example.Date_parse_other Example.posting_record
            (js "42") None None Example.closes_today) (js "token") (Example.world []).
Proof.
  destruct (updateOferta_stamps_fechaPublicacion Example.apiUrl Scripted scripted_fetch
              clock) as [Hstamp Hsame].
  split; [|split].
  - destruct (Hstamp Example.update_data (js "token") (Example.world []))
      as [Hsent | [Hinvalid _]]; [exact Hsent | discriminate Hinvalid].
  - vm_compute. reflexivity.
  - exact (proj2 (Hsame Example.Date_parse_other Example.posting_record
                    Example.posting_record_1999 (js "42") None None
                    Example.closes_today (js "token") (Example.world [])
                    (@eq_refl bool true))).
Defined.

(* ================================================================== *)
(** * Properties of [trim] *)

Lemma trimStart_spaces s : forallb isWhiteSpace s = true -> trimStart s = [].
Proof.
  induction s as [|c s IH]; cbn; [reflexivity|].
  intros H. apply andb_prop in H as [Hc Hs]. rewrite Hc. auto.
Qed.

Lemma trim_spaces s : forallb isWhiteSpace s = true -> trim s = [].
Proof.
  intros H. unfold trim, trimEnd. rewrite (trimStart_spaces s H). reflexivity.
Qed.

Lemma trimStart_In c s : In c (trimStart s) -> In c s.
Proof.
  induction s as [|x s IH]; cbn; [tauto|].
  destruct (isWhiteSpace x); cbn; tauto.
Qed.

Lemma trim_In c s : In c (trim s) -> In c s.
Proof.
  unfold trim, trimEnd. intros H.
  apply in_rev, trimStart_In in H. apply in_rev in H.
  now apply trimStart_In.
Qed.

Lemma trimStart_keeps_nonSpace s :
  existsb nonSpace s = true -> existsb nonSpace (trimStart s) = true.
Proof.
  induction s as [|x s IH]; cbn; [discriminate|].
  unfold nonSpace at 1. destruct (isWhiteSpace x) eqn:Hx; cbn.
  - exact IH.
  - intros _. unfold nonSpace at 1. now rewrite Hx.
Qed.

Lemma existsb_rev_true {A} (f : A -> bool) l :
  existsb f l = true -> existsb f (rev l) = true.
Proof.
  rewrite !existsb_exists. intros (x & Hin & Hx).
  exists x. split; [now apply in_rev in Hin | exact Hx].
Qed.

Lemma trim_keeps_nonSpace s :
  existsb nonSpace s = true -> existsb nonSpace (trim s) = true.
Proof.
  intros H. unfold trim, trimEnd.
  now apply existsb_rev_true, trimStart_keeps_nonSpace, existsb_rev_true,
    trimStart_keeps_nonSpace.
Qed.

Lemma trim_forallb (P : char16 -> bool) s :
  forallb P s = true -> forallb P (trim s) = true.
Proof.
  rewrite !forallb_forall. intros H c Hc. apply H. now apply trim_In.
Qed.

Lemma test_outside_forallb cls s :
  negb (z.test_outside cls s) = forallb (z.class_mem cls) s.
Proof.
  unfold z.test_outside. induction s as [|c s IH]; cbn; [reflexivity|].
  rewrite negb_orb, negb_involutive, IH. reflexivity.
Qed.

(* ================================================================== *)
(** * Properties of the zod combinators *)

Lemma parsed_string checks p s :
  parsed (fst (z.string checks p s)) = Some (fst (z.run_checks checks p s)).
Proof.
  unfold z.string. destruct (z.run_checks checks p s) as [out [|i issues]]; reflexivity.
Qed.

Lemma parsed_refine {I O} (schema : z.Schema I O) check m ap p x :
  parsed (fst (z.refine schema check m ap p x)) = parsed (fst (schema p x)).
Proof.
  unfold z.refine. destruct (schema p x) as [[v|v|] issues]; cbn;
    try destruct (check v); reflexivity.
Qed.

Lemma issues_refine {I O} (schema : z.Schema I O) check m ap p x :
  snd (z.refine schema check m ap p x)
  = snd (schema p x)
    ++ match parsed (fst (schema p x)) with
       | Some v => if check v then [] else [z.mkIssue (p ++ ap) (js m)]
       | None => []
       end.
Proof.
  unfold z.refine. destruct (schema p x) as [[v|v|] issues]; cbn;
    try destruct (check v); cbn; now rewrite ?app_nil_r.
Qed.

Lemma refine_OK_inv {I O} (schema : z.Schema I O) check m ap p x v :
  fst (z.refine schema check m ap p x) = z.OK v ->
  fst (schema p x) = z.OK v /\ check v = true.
Proof.
  unfold z.refine. destruct (schema p x) as [[u|u|] issues]; cbn;
    try destruct (check u) eqn:Hc; cbn; intros H; try discriminate.
  injection H as ->. auto.
Qed.

Lemma parsed_optional_nullable {I O} (schema : z.Schema I O) p x :
  parsed (fst (z.optional_nullable schema p x))
  = match x with
    | z.undefined => Some z.undefined
    | z.null => Some z.null
    | z.value d => option_map z.value (parsed (fst (schema p d)))
    end.
Proof.
  destruct x as [| |d]; cbn; try reflexivity.
  destruct (schema p d) as [[v|v|] issues]; reflexivity.
Qed.

Lemma parsed_merge {A B} (f : z.SyncParseReturn (A -> B)) x :
  parsed (z.merge f x)
  = match parsed f, parsed x with
    | Some g, Some v => Some (g v)
    | _, _ => None
    end.
Proof. destruct f, x; reflexivity. Qed.

(** The rule shared by the title and the company name: the issues it
    reports, in order, and its result. *)
Lemma name_rule (m1 m2 m3 m4 : string) (check : jsstring -> bool) p s :
  let issues :=
    (if (List.length s <? 1)%nat then [z.mkIssue p (js m1)] else [])
    ++ (if (150 <? List.length s)%nat then [z.mkIssue p (js m2)] else [])
    ++ (if notOnlySpaces (trim s) then [] else [z.mkIssue p (js m3)])
    ++ (if check (trim s) then [] else [z.mkIssue p (js m4)]) in
  z.refine
    (z.refine (z.string [z.min 1 m1; z.max 150 m2; z.trim]) notOnlySpaces m3 [])
    check m4 [] p s
  = (match issues with [] => z.OK (trim s) | _ => z.DIRTY (trim s) end, issues).
Proof.
  unfold z.refine, z.string. cbn -[Nat.ltb notOnlySpaces trim js].
  rewrite !app_nil_r.
  destruct (List.length s <? 1)%nat, (150 <? List.length s)%nat;
    cbn -[notOnlySpaces trim js];
    destruct (notOnlySpaces (trim s)); cbn -[trim js];
    destruct (check (trim s)); reflexivity.
Qed.

Lemma str_eqb_eq a b : str_eqb a b = true <-> a = b.
Proof.
  revert b. induction a as [|x a IH]; intros [|y b]; cbn; split; intros H;
    try discriminate; try reflexivity.
  - apply andb_prop in H as [Hxy Hab]. apply N.eqb_eq in Hxy. apply IH in Hab.
    now subst.
  - injection H as -> ->. rewrite N.eqb_refl. now apply IH.
Qed.

Lemma accepts_name_rule (m1 m2 m3 m4 : string) (check : jsstring -> bool) s :
  accepts
    (z.refine
       (z.refine (z.string [z.min 1 m1; z.max 150 m2; z.trim]) notOnlySpaces m3 [])
       check m4 []) s
  = negb (List.length s <? 1)%nat && negb (150 <? List.length s)%nat
    && notOnlySpaces (trim s) && check (trim s).
Proof.
  unfold accepts, z.safeParse. rewrite name_rule.
  destruct (List.length s <? 1)%nat, (150 <? List.length s)%nat,
    (notOnlySpaces (trim s)), (check (trim s)); reflexivity.
Qed.

Lemma notOnlySpaces_trim s :
  existsb nonSpace s = true -> notOnlySpaces (trim s) = true.
Proof.
  intros H. unfold notOnlySpaces.
  pose proof (trim_keeps_nonSpace s H) as H1.
  pose proof (trim_keeps_nonSpace _ H1) as H2.
  destruct (trim s) as [|c t] eqn:Ht; [discriminate|].
  destruct (trim (c :: t)); [discriminate|]. reflexivity.
Qed.

(* ================================================================== *)
(** * Properties of the field rules *)

(** C7, as amended. A title of exactly 150 characters of the allowed set, not
    all of them white space, passes (and is kept trimmed); a title of 151
    characters fails, its first issue being the max-length message; a title
    of one or more white-space characters only fails with the only-spaces
    message. *)
Theorem titulo_length_and_blank_rules page p s :
  (List.length s = 150%nat ->
   forallb (z.class_mem titulo_class) s = true ->
   existsb nonSpace s = true ->
   titulo page p s = (z.OK (trim s), []))
  /\ (List.length s = 151%nat ->
      exists rest,
        issues_of (titulo page) p s
        = z.mkIssue p (js "El título no puede superar los 150 caracteres") :: rest)
  /\ (s <> [] -> forallb isWhiteSpace s = true ->
      In (z.mkIssue p (js "El título no puede ser solo espacios"))
        (issues_of (titulo page) p s)).
Proof.
  unfold issues_of, titulo. rewrite name_rule. repeat split.
  - intros Hlen Hcls Hns. rewrite Hlen.
    rewrite (notOnlySpaces_trim s Hns), test_outside_forallb,
      (trim_forallb _ s Hcls).
    reflexivity.
  - intros Hlen. rewrite Hlen. cbn [snd Nat.ltb Nat.leb app]. eauto.
  - intros Hne Hws. cbn [snd]. rewrite (trim_spaces s Hws).
    apply in_or_app. right. apply in_or_app. right. now left.
Qed.

Lemma empresaConsultora_class_edit c :
  z.class_mem (empresaConsultora_class EditarAviso) c
  = (z.class_mem (empresaConsultora_class NuevoAviso) c && negb (c =? slash)%N)
    || (c =? comma)%N || (c =? hyphen)%N || (c =? enye)%N || (c =? ENYE)%N.
Proof. unfold slash, comma, hyphen, enye, ENYE. cbn. unfold isWhiteSpace. lia. Qed.

(** C3, as amended. The edit class of the company name is the create class
    without ['/'] and with [','], ['-'], ['ñ'] and ['Ñ'] added; so a company
    name the create schema accepts is accepted by the edit schema when,
    trimmed, it has no ['/']. *)
Theorem empresaConsultora_create_vs_edit :
  (forall c,
      z.class_mem (empresaConsultora_class EditarAviso) c
      = (z.class_mem (empresaConsultora_class NuevoAviso) c && negb (c =? slash)%N)
        || (c =? comma)%N || (c =? hyphen)%N || (c =? enye)%N || (c =? ENYE)%N)
  /\ (forall s,
        accepts (empresaConsultora NuevoAviso) s = true ->
        existsb (N.eqb slash) (trim s) = false ->
        accepts (empresaConsultora EditarAviso) s = true).
Proof.
  split; [exact empresaConsultora_class_edit|].
  intros s. unfold empresaConsultora. rewrite !accepts_name_rule.
  rewrite !test_outside_forallb. intros Hcreate Hslash.
  apply andb_prop in Hcreate as [Hrest Hcls]. rewrite Hrest. cbn [andb].
  rewrite forallb_forall in *. intros c Hc.
  rewrite empresaConsultora_class_edit, (Hcls c Hc). cbn [andb].
  destruct (c =? slash)%N eqn:Heq; [|reflexivity].
  exfalso. assert (existsb (N.eqb slash) (trim s) = true) as Hex.
  { apply existsb_exists. exists c. split; [exact Hc|].
    now rewrite N.eqb_sym. }
  congruence.
Qed.

Lemma logo_rule p file :
  let issues :=
    (if logo_size_ok file then [] else [z.mkIssue p (js logoSizeMessage)])
    ++ (if logo_type_ok file then [] else [z.mkIssue p (js logoTypeMessage)]) in
  logo p file = (match issues with [] => z.OK file | _ => z.DIRTY file end, issues).
Proof.
  unfold logo, z.refine, z.optional, z.any. rewrite !app_nil_r.
  destruct file as [f|]; cbn -[logo_size_ok logo_type_ok js];
    destruct (logo_size_ok _); cbn -[logo_type_ok js];
    destruct (logo_type_ok _); reflexivity.
Qed.

Lemma logo_messages_differ p : z.mkIssue p (js logoSizeMessage) <> z.mkIssue p (js logoTypeMessage).
Proof. intros H. injection H as H. vm_compute in H. discriminate. Qed.

(** C9. A file of exactly 5 * 1024 * 1024 = 5,242,880 bytes passes the size
    check of the logo and one of 5,242,881 bytes fails it; a file whose MIME
    type is none of image/png, image/jpeg, image/jpg fails the type check; an
    absent logo passes both (a 5,242,880-byte PNG passes both as well). *)
Theorem logo_size_and_type_rules p :
  (forall f, file_size f = 5242880%N ->
     logo_size_ok (Some f) = true
     /\ ~ In (z.mkIssue p (js logoSizeMessage)) (issues_of logo p (Some f)))
  /\ (forall f, file_size f = 5242881%N ->
        logo_size_ok (Some f) = false
        /\ In (z.mkIssue p (js logoSizeMessage)) (issues_of logo p (Some f)))
  /\ (forall f,
        file_type f <> js "image/png" -> file_type f <> js "image/jpeg" ->
        file_type f <> js "image/jpg" ->
        logo_type_ok (Some f) = false
        /\ In (z.mkIssue p (js logoTypeMessage)) (issues_of logo p (Some f)))
  /\ (forall name, logo p (Some (mkFile name 5242880 (js "image/png")))
                   = (z.OK (Some (mkFile name 5242880 (js "image/png"))), []))
  /\ logo p None = (z.OK None, []).
Proof.
  assert (forall f,
             file_type f <> js "image/png" -> file_type f <> js "image/jpeg" ->
             file_type f <> js "image/jpg" -> logo_type_ok (Some f) = false) as Htype.
  { intros f Hpng Hjpeg Hjpg. unfold logo_type_ok. cbn [existsb].
    destruct (str_eqb (file_type f) (js "image/png")) eqn:E1;
      [apply str_eqb_eq in E1; contradiction|].
    destruct (str_eqb (file_type f) (js "image/jpeg")) eqn:E2;
      [apply str_eqb_eq in E2; contradiction|].
    destruct (str_eqb (file_type f) (js "image/jpg")) eqn:E3;
      [apply str_eqb_eq in E3; contradiction|].
    reflexivity. }
  unfold issues_of. split; [|split; [|split; [|split]]].
  - intros f Hsize.
    assert (logo_size_ok (Some f) = true) as Hok
        by (unfold logo_size_ok; now rewrite Hsize).
    split; [exact Hok|].
    rewrite logo_rule. cbn [snd]. rewrite Hok. cbn [app].
    destruct (logo_type_ok (Some f)); cbn; [tauto|].
    intros [Heq|[]]. symmetry in Heq. now apply logo_messages_differ in Heq.
  - intros f Hsize.
    assert (logo_size_ok (Some f) = false) as Hko
        by (unfold logo_size_ok; now rewrite Hsize).
    split; [exact Hko|].
    rewrite logo_rule. cbn [snd]. rewrite Hko. apply in_or_app. left. now left.
  - intros f Hpng Hjpeg Hjpg.
    pose proof (Htype f Hpng Hjpeg Hjpg) as Hko.
    split; [exact Hko|].
    rewrite logo_rule. cbn [snd]. rewrite Hko. apply in_or_app. right. now left.
  - intros name. rewrite logo_rule. reflexivity.
  - rewrite logo_rule. reflexivity.
Qed.

(** ** The field rules on sample values *)

(** C7, against the claim as stated: 150 spaces are 150 characters of the
    allowed set (the class has [\s]), and the title is rejected, with the
    only-spaces message. *)
Lemma titulo_of_150_spaces_is_rejected :
  List.length (repeat 32%N 150) = 150%nat
  /\ forallb (z.class_mem titulo_class) (repeat 32%N 150) = true
  /\ accepts (titulo NuevoAviso) (repeat 32%N 150) = false
  /\ accepts (titulo EditarAviso) (repeat 32%N 150) = false
  /\ issues_of (titulo NuevoAviso) [] (repeat 32%N 150)
     = [z.mkIssue [] (js "El título no puede ser solo espacios")].
Proof. repeat split; vm_compute; reflexivity. Qed.

(** 150 letters pass, 151 letters and three spaces do not. *)
Lemma titulo_length_and_blank_rules_witness :
  titulo NuevoAviso [] (repeat 97%N 150) = (z.OK (trim (repeat 97%N 150)), [])
  /\ (exists rest,
        issues_of (titulo EditarAviso) [] (repeat 97%N 151)
        = z.mkIssue [] (js "El título no puede superar los 150 caracteres") :: rest)
  /\ In (z.mkIssue [] (js "El título no puede ser solo espacios"))
       (issues_of (titulo NuevoAviso) [] (js "   ")).
Proof.
  split; [|split].
  - destruct (titulo_length_and_blank_rules NuevoAviso [] (repeat 97%N 150)) as (H150 & _ & _).
    apply H150; reflexivity.
  - destruct (titulo_length_and_blank_rules EditarAviso [] (repeat 97%N 151)) as (_ & H151 & _).
    apply H151. reflexivity.
  - destruct (titulo_length_and_blank_rules NuevoAviso [] (js "   ")) as (_ & _ & Hblank).
    apply Hblank; [discriminate | reflexivity].
Defined.

(** C3, against the claim as stated: "A/B" is a company name the create
    schema accepts and the edit schema rejects; and the edit schema accepts
    "Ñandú", which has neither [','] nor ['-'], while the create schema
    rejects it. *)
Lemma empresaConsultora_create_not_within_edit :
  accepts (empresaConsultora NuevoAviso) (js "A/B") = true
  /\ accepts (empresaConsultora EditarAviso) (js "A/B") = false
  /\ accepts (empresaConsultora EditarAviso) (js "Ñandú") = true
  /\ accepts (empresaConsultora NuevoAviso) (js "Ñandú") = false.
Proof. repeat split; vm_compute; reflexivity. Qed.

(** "ACME S.A." has no ['/']: accepted on the create page, it is accepted on
    the edit page. *)
Lemma empresaConsultora_create_vs_edit_witness :
  accepts (empresaConsultora EditarAviso) (js "ACME S.A.") = true.
Proof.
  destruct empresaConsultora_create_vs_edit as [_ Hnames].
  apply Hnames; reflexivity.
Defined.

(** A PNG of 5,242,880 bytes, one of 5,242,881 bytes, and a GIF. *)
Lemma logo_size_and_type_rules_witness :
  (logo_size_ok (Some (Example.png 5242880)) = true
   /\ ~ In (z.mkIssue [] (js logoSizeMessage))
          (issues_of logo [] (Some (Example.png 5242880))))
  /\ (logo_size_ok (Some (Example.png 5242881)) = false
      /\ In (z.mkIssue [] (js logoSizeMessage))
           (issues_of logo [] (Some (Example.png 5242881))))
  /\ (logo_type_ok (Some Example.gif) = false
      /\ In (z.mkIssue [] (js logoTypeMessage)) (issues_of logo [] (Some Example.gif))).
Proof.
  destruct (logo_size_and_type_rules []) as (Hfits & Hover & Htype & _ & _).
  split; [|split].
  - apply Hfits. reflexivity.
  - apply Hover. reflexivity.
  - apply Htype; discriminate.
Defined.

(* ================================================================== *)
(** * Properties of the date-only form *)

Lemma isDigit_digit n : isDigit (digit n) = true.
Proof.
  unfold isDigit, digit. pose proof (Z.mod_pos_bound n 10 eq_refl). lia.
Qed.

Lemma digitVal_digit n : digitVal (digit n) = n mod 10.
Proof.
  unfold digitVal, digit. pose proof (Z.mod_pos_bound n 10 eq_refl). lia.
Qed.

Lemma daysInMonth_le_31 y m : daysInMonth y m <= 31.
Proof. unfold daysInMonth. repeat destruct (_ : bool); lia. Qed.

(** The string of a valid calendar date parses to midnight UTC of that
    day. *)
Lemma parseDateOnly_isoDate y m d :
  0 <= y <= 9999 -> 1 <= m <= 12 -> 1 <= d <= daysInMonth y m ->
  parseDateOnly (isoDate y m d) = Some (days_from_civil y m d * msPerDay).
Proof.
  intros Hy Hm Hd. pose proof (daysInMonth_le_31 y m) as H31.
  unfold isoDate, pad4, pad3, pad2.
  cbn -[digit isDigit digitVal days_from_civil daysInMonth Z.mul Z.add Z.leb msPerDay].
  rewrite !isDigit_digit, !digitVal_digit. cbn [andb].
  assert (1000 * (y / 1000 mod 10) + 100 * (y / 100 mod 10) + 10 * (y / 10 mod 10)
          + y mod 10 = y) as -> by (Z.div_mod_to_equations; lia).
  assert (10 * (m / 10 mod 10) + m mod 10 = m) as -> by (Z.div_mod_to_equations; lia).
  assert (10 * (d / 10 mod 10) + d mod 10 = d) as -> by (Z.div_mod_to_equations; lia).
  replace ((1 <=? m) && (m <=? 12) && (1 <=? d) && (d <=? daysInMonth y m)) with true by lia.
  reflexivity.
Qed.

Lemma isoDate_not_empty y m d : isoDate y m d <> [].
Proof. discriminate. Qed.

(** The year of the era and the day of that year, as [civil_from_days]
    computes them from the day of the era: the year has at most 366 days,
    and has the 366th only before a leap February. *)
Lemma year_of_era_bounds doe :
  0 <= doe <= 146096 ->
  let yoe := (doe - doe / 1460 + doe / 36524 - doe / 146096) / 365 in
  let doy := doe - (365 * yoe + yoe / 4 - yoe / 100) in
  0 <= yoe <= 399 /\ 0 <= doy <= 365
  /\ (doy = 365 ->
      (yoe + 1) mod 4 = 0 /\ ((yoe + 1) mod 100 <> 0 \/ (yoe + 1) mod 400 = 0))
  /\ (yoe = 399 -> doe <= 146036 -> doy <= 305).
Proof.
  intros H yoe doy. subst doy yoe. Z.div_mod_to_equations. lia.
Qed.

Lemma daysInMonth_cases y m :
  1 <= m <= 12 ->
  (m = 2 /\ daysInMonth y m = if isLeapYear y then 29 else 28)
  \/ ((m = 4 \/ m = 6 \/ m = 9 \/ m = 11) /\ daysInMonth y m = 30)
  \/ ((m = 1 \/ m = 3 \/ m = 5 \/ m = 7 \/ m = 8 \/ m = 10 \/ m = 12)
      /\ daysInMonth y m = 31).
Proof.
  intros Hm. unfold daysInMonth.
  destruct (Z.eqb_spec m 2) as [->|H2]; [left; auto|right].
  destruct ((m =? 4) || (m =? 6) || (m =? 9) || (m =? 11)) eqn:E30; [left|right];
    (split; [lia|reflexivity]).
Qed.

(** [civil_from_days] yields a valid calendar date, and [days_from_civil]
    takes it back to the day number. *)
Lemma civil_from_days_valid z :
  let '(y, m, d) := civil_from_days z in
  days_from_civil y m d = z /\ 1 <= m <= 12 /\ 1 <= d <= daysInMonth y m.
Proof.
  unfold civil_from_days, days_from_civil.
  set (z' := z + 719468).
  set (era := z' / 146097).
  set (doe := z' - era * 146097).
  assert (0 <= doe <= 146096) as Hdoe by (subst doe era; Z.div_mod_to_equations; lia).
  pose proof (year_of_era_bounds doe Hdoe) as (Hyoe & Hdoy & Hleap & _). cbv zeta in *.
  set (yoe := (doe - doe / 1460 + doe / 36524 - doe / 146096) / 365) in *.
  set (doy := doe - (365 * yoe + yoe / 4 - yoe / 100)) in *.
  set (mp := (5 * doy + 2) / 153).
  assert (153 * mp <= 5 * doy + 2 < 153 * mp + 153) as Hmp
      by (subst mp; Z.div_mod_to_equations; lia).
  assert (z = era * 146097 + doe - 719468) as Hz by (subst doe z'; lia).
  assert ((yoe + era * 400) / 400 = era) as Hera by (Z.div_mod_to_equations; lia).
  assert (doe = yoe * 365 + yoe / 4 - yoe / 100 + doy) as Hdoe' by (subst doy; lia).
  clearbody mp doy.
  assert (isLeapYear (yoe + era * 400 + 1) = false -> doy <= 364) as Hfeb.
  { unfold isLeapYear. intros Hno.
    destruct (Z.eq_dec doy 365) as [H365|]; [|lia].
    destruct (Hleap H365) as [H4 H100]. exfalso.
    clear - Hno H4 H100. Z.div_mod_to_equations. lia. }
  destruct (mp <? 10) eqn:Emp.
  - replace (mp + 3 <=? 2) with false by lia.
    replace (2 <? mp + 3) with true by lia.
    replace (mp + 3 - 3) with mp by lia.
    rewrite Hera. replace (yoe + era * 400 - era * 400) with yoe by lia.
    pose proof (daysInMonth_cases (yoe + era * 400) (mp + 3)) as Hdays.
    split; [Z.div_mod_to_equations; lia|]. split; [lia|].
    destruct Hdays as [[? ->] | [[? ->] | [? ->]]]; try lia;
      Z.div_mod_to_equations; lia.
  - replace (mp - 9 <=? 2) with true by lia.
    replace (2 <? mp - 9) with false by lia.
    replace (mp - 9 + 9) with mp by lia.
    replace (yoe + era * 400 + 1 - 1) with (yoe + era * 400) by lia.
    rewrite Hera. replace (yoe + era * 400 - era * 400) with yoe by lia.
    pose proof (daysInMonth_cases (yoe + era * 400 + 1) (mp - 9)) as Hdays.
    split; [Z.div_mod_to_equations; lia|]. split; [lia|].
    destruct Hdays as [[? ->] | [[? ->] | [? ->]]]; try lia.
    + destruct (isLeapYear (yoe + era * 400 + 1));
        [|specialize (Hfeb eq_refl)]; Z.div_mod_to_equations; lia.
    + Z.div_mod_to_equations; lia.
Qed.

(** From the epoch to the end of the year 9999 the year has four digits. *)
Lemma civil_from_days_year z :
  0 <= z <= 2932896 ->
  let '(y, _, _) := civil_from_days z in 0 <= y <= 9999.
Proof.
  intros Hz. unfold civil_from_days.
  set (z' := z + 719468).
  set (era := z' / 146097).
  set (doe := z' - era * 146097).
  assert (0 <= doe <= 146096) as Hdoe by (subst doe era; Z.div_mod_to_equations; lia).
  assert (4 <= era <= 24) as Hera by (subst era z'; Z.div_mod_to_equations; lia).
  assert (era = 24 -> doe <= 146036) as Hlast by (subst doe era z'; lia).
  pose proof (year_of_era_bounds doe Hdoe) as (Hyoe & Hdoy & _ & H399). cbv zeta in *.
  set (yoe := (doe - doe / 1460 + doe / 36524 - doe / 146096) / 365) in *.
  set (doy := doe - (365 * yoe + yoe / 4 - yoe / 100)) in *.
  set (mp := (5 * doy + 2) / 153).
  assert (153 * mp <= 5 * doy + 2 < 153 * mp + 153) as Hmp
      by (subst mp; Z.div_mod_to_equations; lia).
  clearbody mp doy yoe doe era.
  destruct (mp <? 10) eqn:Emp.
  - replace (mp + 3 <=? 2) with false by lia. lia.
  - replace (mp - 9 <=? 2) with true by lia. lia.
Qed.

Lemma digit_not_T n : (digit n =? 84)%N = false.
Proof.
  unfold digit. pose proof (Z.mod_pos_bound n 10 eq_refl). lia.
Qed.

(** Until the end of the year 9999, the date part of [toISOString] is the
    date-only string of a valid calendar date: the UTC day of the instant. *)
Lemma isoOfTime_date now :
  0 <= now < 253402300800000 ->
  exists y m d,
    0 <= y <= 9999 /\ 1 <= m <= 12 /\ 1 <= d <= daysInMonth y m
    /\ days_from_civil y m d = now / msPerDay
    /\ beforeT (isoOfTime now) = isoDate y m d.
Proof.
  intros Hnow.
  assert (0 <= now / msPerDay <= 2932896) as Hday
      by (unfold msPerDay; Z.div_mod_to_equations; lia).
  pose proof (civil_from_days_valid (now / msPerDay)) as Hvalid.
  pose proof (civil_from_days_year (now / msPerDay) Hday) as Hyear.
  unfold isoOfTime.
  destruct (civil_from_days (now / msPerDay)) as [[y m] d].
  destruct Hvalid as (Hback & Hm & Hd).
  exists y, m, d. repeat (split; [assumption || lia|]).
  unfold isoYear, isoDate. replace ((0 <=? y) && (y <=? 9999)) with true by lia.
  unfold pad4, pad3, pad2. cbn [app js bytes_of_string utf16_of_utf8].
  cbn -[digit]. rewrite !digit_not_T. reflexivity.
Qed.

(* ================================================================== *)
(** * Properties of the whole schema *)

Section FormProperties.

Variable emailRegex_test : jsstring -> bool.
Variable URL_canParse : jsstring -> bool.
Variable Date_parse_other : jsstring -> Date.


Lemma parsed_titulo page p s : parsed (fst (titulo page p s)) = Some (trim s).
Proof. unfold titulo. now rewrite !parsed_refine, parsed_string. Qed.

Lemma parsed_descripcion p s : parsed (fst (descripcion p s)) = Some (trim s).
Proof. unfold descripcion. now rewrite !parsed_refine, parsed_string. Qed.

Lemma parsed_empresaConsultora page p s :
  parsed (fst (empresaConsultora page p s)) = Some (trim s).
Proof. unfold empresaConsultora. now rewrite !parsed_refine, parsed_string. Qed.

Lemma parsed_categoria p s : parsed (fst (categoria p s)) = Some s.
Proof. unfold categoria. now rewrite parsed_string. Qed.

Lemma parsed_emailContacto p v :
  parsed (fst (emailContacto emailRegex_test p v)) = Some v.
Proof.
  unfold emailContacto. rewrite parsed_optional_nullable.
  destruct v; try reflexivity. now rewrite parsed_string.
Qed.

Lemma parsed_linkPostulacion p v :
  parsed (fst (linkPostulacion URL_canParse p v))
  = Some (maybe_trim v).
Proof.
  unfold linkPostulacion. rewrite parsed_optional_nullable.
  destruct v; try reflexivity. now rewrite parsed_refine, parsed_string.
Qed.

Lemma parsed_fechaCierre p v : parsed (fst (fechaCierre p v)) = Some v.
Proof.
  unfold fechaCierre. rewrite parsed_optional_nullable.
  destruct v; reflexivity.
Qed.

Lemma parsed_logo p file : parsed (fst (logo p file)) = Some file.
Proof. rewrite logo_rule. cbn [fst]. now destruct (_ ++ _). Qed.

(** No property of a form state aborts, so the object never does; and
    its issues are those of the properties, in the order of the shape. *)
Lemma object_parsed page p data :
  parsed (fst (object emailRegex_test URL_canParse page p data))
  = Some (object_value data).
Proof.
  unfold object.
  pose proof (parsed_titulo page (p ++ ["titulo"%string]) (Form.titulo data)) as H1.
  pose proof (parsed_descripcion (p ++ ["descripcion"%string]) (Form.descripcion data)) as H2.
  pose proof (parsed_empresaConsultora page (p ++ ["empresaConsultora"%string])
                (Form.empresaConsultora data)) as H3.
  pose proof (parsed_categoria (p ++ ["categoria"%string]) (Form.categoria data)) as H4.
  pose proof (parsed_emailContacto (p ++ ["emailContacto"%string])
                (Form.emailContacto data)) as H6.
  pose proof (parsed_linkPostulacion (p ++ ["linkPostulacion"%string])
                (Form.linkPostulacion data)) as H7.
  pose proof (parsed_fechaCierre (p ++ ["fechaCierre"%string]) (Form.fechaCierre data)) as H8.
  pose proof (parsed_logo (p ++ ["logo"%string]) (Form.logo data)) as H9.
  destruct (titulo _ _ _) as [r1 i1], (descripcion _ _) as [r2 i2],
    (empresaConsultora _ _ _) as [r3 i3], (categoria _ _) as [r4 i4],
    (emailContacto _ _ _) as [r6 i6], (linkPostulacion _ _ _) as [r7 i7],
    (fechaCierre _ _) as [r8 i8], (logo _ _) as [r9 i9].
  cbn [fst snd z.any] in *.
  rewrite !parsed_merge, H1, H2, H3, H4, H6, H7, H8, H9. reflexivity.
Qed.

(** The issues of the whole schema: those of the object, then one for each
    of the three refinements that fails on the parsed state. *)
Lemma formSchema_issues page now p data :
  issues_of (formSchema emailRegex_test URL_canParse Date_parse_other page now) p data
  = issues_of (object emailRegex_test URL_canParse page) p data
    ++ (if email_required (object_value data) then []
        else [z.mkIssue (p ++ ["emailContacto"%string]) (js emailRequiredMessage)])
    ++ (if link_required (object_value data) then []
        else [z.mkIssue (p ++ ["linkPostulacion"%string]) (js linkRequiredMessage)])
    ++ (if fechaCierre_not_past Date_parse_other now (object_value data) then []
        else [z.mkIssue (p ++ ["fechaCierre"%string]) (js fechaCierreMessage)]).
Proof.
  unfold issues_of, formSchema.
  rewrite !issues_refine, !parsed_refine, object_parsed, <- !app_assoc.
  reflexivity.
Qed.

(** The schema is valid only when every refinement holds of the parsed
    state. *)
Lemma formSchema_OK_inv page now p data v :
  fst (formSchema emailRegex_test URL_canParse Date_parse_other page now p data) = z.OK v ->
  v = object_value data
  /\ email_required v = true /\ link_required v = true
  /\ fechaCierre_not_past Date_parse_other now v = true.
Proof.
  unfold formSchema. intros H.
  apply refine_OK_inv in H as [H Hdate].
  apply refine_OK_inv in H as [H Hlink].
  apply refine_OK_inv in H as [H Hmail].
  pose proof (object_parsed page p data) as Hobj. rewrite H in Hobj.
  injection Hobj as ->. auto.
Qed.

Lemma handleSubmit_blocked {R} page now (onSubmit : Form.t -> R) values :
  link_required (object_value values) = false
  \/ email_required (object_value values) = false
  \/ fechaCierre_not_past Date_parse_other now (object_value values) = false ->
  handleSubmit emailRegex_test URL_canParse Date_parse_other page now onSubmit values
  = None.
Proof.
  intros Hfail. unfold handleSubmit, z.safeParse.
  destruct (formSchema _ _ _ page now [] values) as [[v|v|] issues] eqn:E;
    try reflexivity.
  pose proof (formSchema_OK_inv page now [] values v) as Hinv.
  rewrite E in Hinv. destruct (Hinv eq_refl) as (-> & Hm & Hl & Hd).
  destruct Hfail as [Hf|[Hf|Hf]]; congruence.
Qed.

(** C8. With the channel LINK and a link that is absent, null, empty or
    white space only, the schema reports the link-required message at
    [linkPostulacion], whatever [emailContacto] holds, and [handleSubmit]
    does not run [onSubmit]. *)
Theorem link_required_blocks_submission page now values :
  Form.formaPostulacion values = LINK ->
  (Form.linkPostulacion values = z.undefined
   \/ Form.linkPostulacion values = z.null
   \/ exists s, Form.linkPostulacion values = z.value s
                /\ forallb isWhiteSpace s = true) ->
  In (z.mkIssue ["linkPostulacion"%string] (js linkRequiredMessage))
    (issues_of (formSchema emailRegex_test URL_canParse Date_parse_other page now)
       [] values)
  /\ forall R (onSubmit : Form.t -> R),
      handleSubmit emailRegex_test URL_canParse Date_parse_other page now
        onSubmit values = None.
Proof.
  intros Hforma Hlink.
  assert (link_required (object_value values) = false) as Hreq.
  { unfold link_required, object_value. cbn [Form.formaPostulacion Form.linkPostulacion].
    rewrite Hforma.
    destruct Hlink as [-> | [-> | (s & -> & Hws)]]; try reflexivity.
    cbn [blank maybe_trim]. now rewrite (trim_spaces s Hws). }
  split.
  - rewrite formSchema_issues, Hreq.
    apply in_or_app. right. apply in_or_app. right. apply in_or_app. left.
    now left.
  - intros R onSubmit. apply handleSubmit_blocked. now left.
Qed.

(** When the closing date is a non-empty string that parses to a time
    value, the third refinement fails exactly when that time is before
    [now]. *)
Lemma fechaCierre_rejected_iff now data s t :
  Form.fechaCierre data = z.value s ->
  s <> [] ->
  Date_of_string Date_parse_other s = Some t ->
  fechaCierre_not_past Date_parse_other now (object_value data) = negb (t <? now).
Proof.
  intros Hs Hne Ht. unfold fechaCierre_not_past, object_value. cbn [Form.fechaCierre].
  rewrite Hs, Ht. cbn [Date_lt].
  destruct s as [|c s']; [contradiction|]. cbn [str_falsy negb andb].
  now destruct (t <? now).
Qed.

(** A closing date picked in the date input, a valid calendar day, passes
    the third refinement only until midnight UTC that opens the day: from
    the first millisecond after it, that very day included, the form is
    reported the closing-date message and is not submitted. *)
Lemma fechaCierre_of_a_day page now values y m d :
  0 <= y <= 9999 -> 1 <= m <= 12 -> 1 <= d <= daysInMonth y m ->
  Form.fechaCierre values = z.value (isoDate y m d) ->
  (now <= days_from_civil y m d * msPerDay ->
     fechaCierre_not_past Date_parse_other now (object_value values) = true)
  /\ (days_from_civil y m d * msPerDay < now ->
        In (z.mkIssue ["fechaCierre"%string] (js fechaCierreMessage))
          (issues_of (formSchema emailRegex_test URL_canParse Date_parse_other page now)
             [] values)
        /\ forall R (onSubmit : Form.t -> R),
            handleSubmit emailRegex_test URL_canParse Date_parse_other page now
              onSubmit values = None).
Proof.
  intros Hy Hm Hd Hfecha.
  assert (fechaCierre_not_past Date_parse_other now (object_value values)
          = negb (days_from_civil y m d * msPerDay <? now)) as Hcheck.
  { apply (fechaCierre_rejected_iff now values (isoDate y m d)); auto.
    - apply isoDate_not_empty.
    - unfold Date_of_string. now rewrite parseDateOnly_isoDate. }
  split.
  - intros Hle. rewrite Hcheck. lia.
  - intros Hlt.
    assert (fechaCierre_not_past Date_parse_other now (object_value values) = false)
      as Hpast by (rewrite Hcheck; lia).
    split.
    + rewrite formSchema_issues, Hpast.
      do 3 (apply in_or_app; right). now left.
    + intros R onSubmit. apply handleSubmit_blocked. auto.
Qed.

(** At midnight UTC sharp, today's date still passes the third
    refinement. *)
Lemma fechaCierre_today_at_midnight now values :
  0 <= now < 253402300800000 ->
  now mod msPerDay = 0 ->
  Form.fechaCierre values = z.value (EditForm_fechaCierre_min now) ->
  fechaCierre_not_past Date_parse_other now (object_value values) = true.
Proof.
  intros Hnow Hmid Hfecha.
  destruct (isoOfTime_date now Hnow) as (y & m & d & Hy & Hm & Hd & Hday & Hstr).
  unfold EditForm_fechaCierre_min in Hfecha. rewrite Hstr in Hfecha.
  destruct (fechaCierre_of_a_day NuevoAviso now values y m d Hy Hm Hd Hfecha) as [Hearly _].
  apply Hearly. rewrite Hday. unfold msPerDay in *. Z.div_mod_to_equations. lia.
Qed.

(** C2, on the code. Today's date in UTC, which is the earliest day the date
    input of the edit page offers, does not pass: at every instant of the day
    but midnight sharp (and until the end of the year 9999) a form whose
    closing date is today is reported the closing-date message and is not
    submitted. The schema compares midnight UTC of the day with the current
    instant. *)
Theorem fechaCierre_today_is_rejected page now values :
  0 <= now < 253402300800000 ->
  now mod msPerDay <> 0 ->
  Form.fechaCierre values = z.value (EditForm_fechaCierre_min now) ->
  In (z.mkIssue ["fechaCierre"%string] (js fechaCierreMessage))
    (issues_of (formSchema emailRegex_test URL_canParse Date_parse_other page now)
       [] values)
  /\ forall R (onSubmit : Form.t -> R),
      handleSubmit emailRegex_test URL_canParse Date_parse_other page now
        onSubmit values = None.
Proof.
  intros Hnow Hmid Hfecha.
  destruct (isoOfTime_date now Hnow) as (y & m & d & Hy & Hm & Hd & Hday & Hstr).
  unfold EditForm_fechaCierre_min in Hfecha. rewrite Hstr in Hfecha.
  destruct (fechaCierre_of_a_day page now values y m d Hy Hm Hd Hfecha) as [_ Hlate].
  apply Hlate. rewrite Hday. unfold msPerDay in *. Z.div_mod_to_equations. lia.
Qed.

End FormProperties.

(** ** The schemas on sample form states *)

(** The channel is LINK, the link is empty, the e-mail is filled in. *)
Lemma link_required_blocks_submission_witness :
  In (z.mkIssue ["linkPostulacion"%string] (js linkRequiredMessage))
    (issues_of
       (formSchema Example.emailRegex_test Example.URL_canParse Example.Date_parse_other
          NuevoAviso noon_2026_11_02)
       [] Example.link_missing)
  /\ handleSubmit Example.emailRegex_test Example.URL_canParse Example.Date_parse_other
       NuevoAviso noon_2026_11_02 (fun data => data) Example.link_missing
     = None.
Proof.
  destruct (link_required_blocks_submission
              Example.emailRegex_test Example.URL_canParse Example.Date_parse_other
              NuevoAviso noon_2026_11_02 Example.link_missing eq_refl) as [Hissue Hblocked].
  - right. right. exists []. split; reflexivity.
  - split; [exact Hissue | apply Hblocked].
Defined.

(** At noon of 2026-11-02 the third refinement fails on yesterday's date and
    on today's, and holds on tomorrow's. *)
Example fechaCierre_yesterday_today_tomorrow :
  let closes (day : string) :=
    Form.mk (js "Cocinero/a") (js "Turno noche") (js "ACME S.A.") (js "c3")
      MAIL (z.value (js "rrhh@acme.com")) z.null (z.value (js day)) None in
  fechaCierre_not_past Example.Date_parse_other noon_2026_11_02 (closes "2026-11-01"%string) = false
  /\ fechaCierre_not_past Example.Date_parse_other noon_2026_11_02 (closes "2026-11-02"%string) = false
  /\ fechaCierre_not_past Example.Date_parse_other noon_2026_11_02 (closes "2026-11-03"%string) = true.
Proof. vm_compute. auto. Qed.

(** The sample form closes on 2026-11-02, which at noon of that day is the
    earliest day the date input offers, and is validated then, on the edit
    page. *)
Lemma fechaCierre_today_is_rejected_witness :
  EditForm_fechaCierre_min noon_2026_11_02 = js "2026-11-02"
  /\ Form.fechaCierre Example.closes_today = z.value (js "2026-11-02")
  /\ In (z.mkIssue ["fechaCierre"%string] (js fechaCierreMessage))
       (issues_of
          (formSchema Example.emailRegex_test Example.URL_canParse Example.Date_parse_other
             EditarAviso noon_2026_11_02)
          [] Example.closes_today)
  /\ handleSubmit Example.emailRegex_test Example.URL_canParse Example.Date_parse_other
       EditarAviso noon_2026_11_02 (fun data => data) Example.closes_today
     = None.
Proof.
  split; [reflexivity | split; [reflexivity|]].
  destruct (fechaCierre_today_is_rejected
              Example.emailRegex_test Example.URL_canParse Example.Date_parse_other
              EditarAviso noon_2026_11_02 Example.closes_today) as [Hissue Hblocked].
  - unfold noon_2026_11_02. lia.
  - discriminate.
  - reflexivity.
  - split; [exact Hissue | apply Hblocked].
Defined.

(* ================================================================== *)
(** * Properties of the rest of the client *)

Section ClientErrors.

Variable apiUrl : jsstring.
Variable World : Type.
Variable fetch : Request -> World -> Promise Response * World.
Variable Date_now : World -> Z.

Lemma try_catch_only_errors {A} (m : World -> Promise A * World) unknown :
  only_errors (try_catch World m (rethrow World unknown)).
Proof.
  intros w e w'. unfold try_catch, rethrow, throw.
  destruct (m w) as [[a|e0] w1]; intros H; [discriminate|].
  injection H as <- _. destruct e0; reflexivity.
Qed.

(** Whatever the network does, each call of [ofertas.ts] that rejects does
    so with an [Error] object: a thrown value of another kind is replaced by
    the call's own "Error desconocido" error. *)
Theorem ofertas_calls_reject_with_errors :
  (forall id, only_errors (fetchOfertaById apiUrl World fetch id))
  /\ (forall slug, only_errors (fetchOfertaBySlug apiUrl World fetch slug))
  /\ only_errors (fetchOfertas apiUrl World fetch)
  /\ (forall token, only_errors (fetchUserOfertas apiUrl World fetch token))
  /\ (forall data token, only_errors (updateOferta apiUrl World fetch Date_now data token))
  /\ (forall data token, only_errors (createOferta apiUrl World fetch Date_now data token))
  /\ (forall id token, only_errors (deleteOferta apiUrl World fetch id token))
  /\ (forall id token, only_errors (enableOfertaAdmin apiUrl World fetch id token))
  /\ (forall id token, only_errors (deleteOfertaAdmin apiUrl World fetch id token)).
Proof.
  repeat split; intros; apply try_catch_only_errors.
Qed.

Lemma try_catch_fetch_rejected {A} req (k : Response -> World -> Promise A * World)
    unknown w e w' :
  fetch req w = (Rejected e, w') ->
  try_catch World (bind World (fetch req) k) (rethrow World unknown) w
  = (surfaced unknown e, w').
Proof.
  intros H. unfold try_catch, bind. rewrite H. reflexivity.
Qed.

(** When the network gives no response, the thrown value comes out of every
    call as it is if it is an [Error], and as the call's own "Error
    desconocido" error otherwise. ([updateOferta] gets that far only with a
    closing date that is absent or valid.) *)
Theorem network_failure_is_surfaced w e w' :
  (forall req, fetch req w = (Rejected e, w')) ->
  (forall id,
      fetchOfertaById apiUrl World fetch id w
      = (surfaced (js "Error desconocido al obtener oferta con ID " ++ id) e, w'))
  /\ (forall slug,
        fetchOfertaBySlug apiUrl World fetch slug w
        = (surfaced (js "Error desconocido al obtener oferta con slug " ++ slug) e, w'))
  /\ fetchOfertas apiUrl World fetch w
     = (surfaced (js "Error desconocido al obtener ofertas") e, w')
  /\ (forall token,
        fetchUserOfertas apiUrl World fetch token w
        = (surfaced (js "Error desconocido al obtener ofertas del usuario") e, w'))
  /\ (forall data token,
        UpdateData.fechaCierre data <> Some None ->
        updateOferta apiUrl World fetch Date_now data token w
        = (surfaced (js "Error desconocido al actualizar oferta con ID "
                       ++ UpdateData.id data) e, w'))
  /\ (forall data token,
        createOferta apiUrl World fetch Date_now data token w
        = (surfaced (js "Error desconocido al crear oferta") e, w'))
  /\ (forall id token,
        deleteOferta apiUrl World fetch id token w
        = (surfaced (js "Error desconocido al eliminar oferta con ID " ++ id) e, w'))
  /\ (forall id token,
        enableOfertaAdmin apiUrl World fetch id token w
        = (surfaced (js "Error desconocido al habilitar oferta con ID " ++ id) e, w'))
  /\ (forall id token,
        deleteOfertaAdmin apiUrl World fetch id token w
        = (surfaced (js "Error desconocido al eliminar oferta con ID " ++ id
                       ++ js " como administrador") e, w')).
Proof.
  intros Hdown.
  split; [|split; [|split; [|split; [|split; [|split; [|split; [|split]]]]]]];
    intros; try (apply try_catch_fetch_rejected; apply Hdown).
  - rewrite updateOferta_sends.
    destruct (updateOferta_formData_built World Date_now data w)
      as [[Hinv _] | (cierre & rest & ->)]; [contradiction|].
    apply try_catch_fetch_rejected, Hdown.
Qed.

Lemma admin_call_responded req unknown w r w' :
  fetch req w = (Resolved r, w') ->
  by_status r w'
    (try_catch World (bind World (fetch req) (fun response => throw_unless_ok World response))
       (rethrow World unknown) w).
Proof.
  intros H. unfold by_status, try_catch, bind, throw_unless_ok, throw_if. rewrite H.
  split; intros Hok; rewrite Hok; cbn; [reflexivity|].
  intros body Hbody. unfold bind, await, ret, throw, rethrow. rewrite Hbody. reflexivity.
Qed.


Lemma fetchUserOfertas_responded token w r w' :
  fetch (mkRequest (apiUrl ++ js "/api/ofertas/mis-avisos") GET
           (jsonHeaders ++ [bearer token]) None) w = (Resolved r, w') ->
  fetchUserOfertas apiUrl World fetch token w =
    (on_response (fun data => negb (Array_isArray data)) notAnArray
       (js "Error desconocido al obtener ofertas del usuario") r, w').
Proof.
  intros Hfetch. unfold fetchUserOfertas, try_catch, bind, throw_unless_ok, throw_if,
    on_response.
  rewrite Hfetch. destruct (ok r); cbn; unfold await, throw, rethrow, ret, bind.
  - destruct (json r) as [data|]; [|reflexivity].
    destruct (Array_isArray data); reflexivity.
  - destruct (text r); reflexivity.
Qed.


Lemma mutation_responded req unknown w r w' :
  fetch req w = (Resolved r, w') ->
  try_catch World
    (bind World (fetch req)
       (fun response =>
          bind World (throw_unless_ok World response)
            (fun _ => bind World (await World (json response)) (ret World))))
    (rethrow World unknown) w
  = (on_response (fun _ => false) notAnObject unknown r, w').
Proof.
  intros H. unfold try_catch, bind, throw_unless_ok, throw_if, on_response. rewrite H.
  destruct (ok r); cbn; unfold await, throw, rethrow, ret, bind.
  - destruct (json r); reflexivity.
  - destruct (text r); reflexivity.
Qed.


(** The parts of the two multipart bodies. An update has the parts
    ["oferta"], then ["logo"] when a file was chosen, then ["logoUrl"], which
    is always there and is the text ["null"] when there is no URL; a creation
    has ["oferta"] and the ["logo"] when a file was chosen, and never a
    ["logoUrl"]. *)
Theorem multipart_parts w :
  (forall (data : UpdateData.t) formData w',
      updateOferta_formData World Date_now data w = (Resolved formData, w') ->
      map fst formData
      = [js "oferta"]
          ++ match UpdateData.logo data with Some _ => [js "logo"] | None => [] end
          ++ [js "logoUrl"]
      /\ FormData_get (js "logo") formData = option_map FormBlob (UpdateData.logo data)
      /\ FormData_get (js "logoUrl") formData
         = Some (FormString match UpdateData.logoUrl data with
                            | Some u => u
                            | None => js "null"
                            end))
  /\ (forall (data : CreateData.t) formData w',
        createOferta_formData World Date_now data w = (Resolved formData, w') ->
        map fst formData
        = [js "oferta"]
            ++ match CreateData.logo data with Some _ => [js "logo"] | None => [] end
        /\ FormData_get (js "logo") formData = option_map FormBlob (CreateData.logo data)
        /\ FormData_get (js "logoUrl") formData = None).
Proof.
  split; intros data formData w'.
  - unfold updateOferta_formData, bind, new_Date, await, ret, append. cbn.
    destruct (UpdateData.fechaCierre data) as [[t|]|]; cbn; try discriminate;
      destruct (UpdateData.logo data); cbn; intros H; injection H as <- _;
        repeat split; reflexivity.
  - unfold createOferta_formData, bind, new_Date, await, ret, append. cbn.
    destruct (CreateData.logo data); cbn; intros H; injection H as <- _;
      repeat split; reflexivity.
Qed.

End ClientErrors.

Section ContactProperties.

Variable apiUrl : jsstring.
Variable World : Type.
Variable fetch : JsonRequest.t -> World -> Promise Response * World.


End ContactProperties.

Section MetadataProperties.

Variable apiUrl : jsstring.
Variable World : Type.
Variable fetch : Request -> World -> Promise Response * World.

(** A body with none of the three properties read: every array, and an
    object without them. *)
Lemma metadata_of_nothing id oferta :
  JSON_get "titulo" oferta = None ->
  JSON_get "empresaConsultora" oferta = None ->
  JSON_get "logoUrl" oferta = None ->
  Metadata.title (metadata_of apiUrl id oferta) = js "undefined - undefined | Madryn Empleos"
  /\ Metadata.tw_images (Metadata.twitter (metadata_of apiUrl id oferta))
     = js "/lib/logo.jpeg".
Proof.
  intros Ht He Hl. unfold metadata_of. rewrite Ht, He, Hl. split; reflexivity.
Qed.


End MetadataProperties.

(** The image of the metadata. The Open Graph image and the Twitter image
    are the same URL: the API origin followed by [logoUrl] when that is a
    non-empty string, and the default logo when the posting has no [logoUrl],
    a [null] one or an empty one. *)
Theorem metadata_image apiUrl id oferta :
  map Metadata.url (Metadata.images (Metadata.openGraph (metadata_of apiUrl id oferta)))
  = [Metadata.tw_images (Metadata.twitter (metadata_of apiUrl id oferta))]
  /\ (forall s, JSON_get "logoUrl" oferta = Some (JString s) -> s <> [] ->
        Metadata.tw_images (Metadata.twitter (metadata_of apiUrl id oferta)) = apiUrl ++ s)
  /\ (JSON_get "logoUrl" oferta = None \/ JSON_get "logoUrl" oferta = Some JNull
      \/ JSON_get "logoUrl" oferta = Some (JString []) ->
      Metadata.tw_images (Metadata.twitter (metadata_of apiUrl id oferta))
      = js "/lib/logo.jpeg").
Proof.
  unfold metadata_of. cbn [Metadata.images Metadata.openGraph Metadata.twitter
                           Metadata.tw_images Metadata.url map].
  split; [reflexivity|]. split.
  - intros s -> Hs. destruct s; [contradiction|]. reflexivity.
  - intros [-> | [-> | ->]]; reflexivity.
Qed.

(* ================================================================== *)
(** * When a form is submitted *)

Lemma nonSpace_or_spaces s :
  existsb nonSpace s = false -> forallb isWhiteSpace s = true.
Proof.
  induction s as [|c s IH]; cbn; [reflexivity|].
  unfold nonSpace at 1. destruct (isWhiteSpace c); cbn; [exact IH | discriminate].
Qed.

Lemma trim_empty_iff s : str_falsy (trim s) = negb (existsb nonSpace s).
Proof.
  destruct (existsb nonSpace s) eqn:E; cbn.
  - pose proof (trim_keeps_nonSpace s E) as H. now destruct (trim s).
  - now rewrite (trim_spaces s (nonSpace_or_spaces s E)).
Qed.

Lemma notOnlySpaces_trim_eq s : notOnlySpaces (trim s) = existsb nonSpace s.
Proof.
  destruct (existsb nonSpace s) eqn:E.
  - now apply notOnlySpaces_trim.
  - now rewrite (trim_spaces s (nonSpace_or_spaces s E)).
Qed.

Lemma nonSpace_not_empty s : existsb nonSpace s = true -> (List.length s <? 1)%nat = false.
Proof. destruct s; [discriminate | reflexivity]. Qed.

Lemma str_eqb_nil s : str_eqb s [] = str_falsy s.
Proof. now destruct s. Qed.

Lemma blank_present v : blank v = negb (present v).
Proof.
  destruct v as [| |s]; try reflexivity. cbn [blank present].
  rewrite str_eqb_nil, trim_empty_iff.
  destruct (existsb nonSpace s) eqn:E; cbn; [|apply orb_true_r].
  destruct s; [discriminate | reflexivity].
Qed.

Lemma blank_trimmed_present v : blank (maybe_trim v) = negb (present v).
Proof.
  destruct v as [| |s]; try reflexivity. cbn [blank present maybe_trim].
  rewrite str_eqb_nil, !trim_empty_iff.
  destruct (existsb nonSpace s) eqn:E; cbn; [|reflexivity].
  now rewrite (trim_keeps_nonSpace s E).
Qed.

(** The status of each rule. *)

Lemma is_OK_name_rule (m1 m2 m3 m4 : string) cls p s :
  is_OK (fst (z.refine
                (z.refine (z.string [z.min 1 m1; z.max 150 m2; z.trim]) notOnlySpaces m3 [])
                (fun val => negb (z.test_outside cls val)) m4 [] p s))
  = name_ok 150 cls s.
Proof.
  rewrite name_rule. cbn [fst]. unfold name_ok.
  rewrite notOnlySpaces_trim_eq, test_outside_forallb.
  destruct (existsb nonSpace s) eqn:E.
  - rewrite (nonSpace_not_empty s E).
    replace (150 <? List.length s)%nat with (negb (List.length s <=? 150)%nat)
      by (destruct (Nat.leb_spec (List.length s) 150), (Nat.ltb_spec 150 (List.length s));
          reflexivity || lia).
    destruct (List.length s <=? 150)%nat, (forallb (z.class_mem cls) (trim s)); reflexivity.
  - destruct (List.length s <? 1)%nat, (150 <? List.length s)%nat,
      (forallb (z.class_mem cls) (trim s)); reflexivity.
Qed.

Lemma is_OK_titulo page p s : is_OK (fst (titulo page p s)) = name_ok 150 titulo_class s.
Proof. unfold titulo. apply is_OK_name_rule. Qed.

Lemma is_OK_empresaConsultora page p s :
  is_OK (fst (empresaConsultora page p s)) = name_ok 150 (empresaConsultora_class page) s.
Proof. unfold empresaConsultora. apply is_OK_name_rule. Qed.

Lemma is_OK_descripcion p s : is_OK (fst (descripcion p s)) = text_ok 5000 s.
Proof.
  unfold descripcion, z.refine, z.string, text_ok. cbn -[Nat.ltb Nat.leb notOnlySpaces trim js].
  rewrite !app_nil_r.
  replace (5000 <? List.length s)%nat with (negb (List.length s <=? 5000)%nat)
    by (destruct (Nat.leb_spec (List.length s) 5000), (Nat.ltb_spec 5000 (List.length s));
        reflexivity || lia).
  pose proof (notOnlySpaces_trim_eq s) as Hblank.
  destruct (existsb nonSpace s) eqn:E.
  - rewrite (nonSpace_not_empty s E).
    destruct (List.length s <=? 5000)%nat; cbn -[notOnlySpaces trim js];
      rewrite Hblank; reflexivity.
  - destruct (List.length s <? 1)%nat, (List.length s <=? 5000)%nat;
      cbn -[notOnlySpaces trim js]; rewrite Hblank; reflexivity.
Qed.

Lemma is_OK_categoria p s : is_OK (fst (categoria p s)) = negb (str_falsy s).
Proof. unfold categoria, z.string. cbn. now destruct s. Qed.

Lemma is_OK_logo p file :
  is_OK (fst (logo p file)) = logo_size_ok file && logo_type_ok file.
Proof.
  rewrite logo_rule. cbn [fst].
  destruct (logo_size_ok file), (logo_type_ok file); reflexivity.
Qed.

Lemma is_OK_merge {A B} (f : z.SyncParseReturn (A -> B)) x :
  is_OK (z.merge f x) = is_OK f && is_OK x.
Proof. destruct f, x; reflexivity. Qed.

Lemma is_OK_refine {I O} (schema : z.Schema I O) check m ap p x :
  is_OK (fst (z.refine schema check m ap p x))
  = is_OK (fst (schema p x))
    && match parsed (fst (schema p x)) with Some v => check v | None => true end.
Proof.
  unfold z.refine. destruct (schema p x) as [[v|v|] issues]; cbn;
    try destruct (check v); reflexivity.
Qed.

Lemma OK_parsed {A} (r : z.SyncParseReturn A) v :
  is_OK r = true -> parsed r = Some v -> r = z.OK v.
Proof. destruct r; cbn; intros H1 H2; try discriminate. now injection H2 as ->. Qed.

Section Submission.

Variable emailRegex_test : jsstring -> bool.
Variable URL_canParse : jsstring -> bool.
Variable Date_parse_other : jsstring -> Date.

(** [linkPostulacion] on every value: its issues and its status. *)
Lemma linkPostulacion_parse p v :
  issues_of (linkPostulacion URL_canParse) p v
  = match v with
    | z.value s =>
        if URL_canParse s then []
        else [z.mkIssue p (js "Debes ingresar una URL válida (ej: https://example.com)")]
    | _ => []
    end
  /\ is_OK (fst (linkPostulacion URL_canParse p v)) = absent_or URL_canParse v.
Proof.
  unfold issues_of, linkPostulacion, z.optional_nullable.
  destruct v as [| |s]; cbn [snd fst is_OK absent_or]; auto.
  unfold z.refine, z.string. cbn -[notOnlySpaces trim js str_falsy].
  assert (str_falsy (trim s) || notOnlySpaces (trim s) = true) as Hdead.
  { rewrite trim_empty_iff, notOnlySpaces_trim_eq. now destruct (existsb nonSpace s). }
  destruct (URL_canParse s); cbn -[notOnlySpaces trim js str_falsy];
    rewrite Hdead; cbn; auto.
Qed.

Lemma is_OK_emailContacto p v :
  is_OK (fst (emailContacto emailRegex_test p v)) = absent_or emailRegex_test v.
Proof.
  unfold emailContacto, z.optional_nullable, z.string.
  destruct v as [| |s]; cbn; try reflexivity. now destruct (emailRegex_test s).
Qed.

Lemma is_OK_fechaCierre p v : is_OK (fst (fechaCierre p v)) = true.
Proof. destruct v; reflexivity. Qed.

Lemma is_OK_object page p data :
  is_OK (fst (object emailRegex_test URL_canParse page p data))
  = name_ok 150 titulo_class (Form.titulo data)
    && text_ok 5000 (Form.descripcion data)
    && name_ok 150 (empresaConsultora_class page) (Form.empresaConsultora data)
    && negb (str_falsy (Form.categoria data))
    && absent_or emailRegex_test (Form.emailContacto data)
    && absent_or URL_canParse (Form.linkPostulacion data)
    && (logo_size_ok (Form.logo data) && logo_type_ok (Form.logo data)).
Proof.
  unfold object.
  pose proof (is_OK_titulo page (p ++ ["titulo"%string]) (Form.titulo data)) as H1.
  pose proof (is_OK_descripcion (p ++ ["descripcion"%string]) (Form.descripcion data)) as H2.
  pose proof (is_OK_empresaConsultora page (p ++ ["empresaConsultora"%string])
                (Form.empresaConsultora data)) as H3.
  pose proof (is_OK_categoria (p ++ ["categoria"%string]) (Form.categoria data)) as H4.
  pose proof (is_OK_emailContacto (p ++ ["emailContacto"%string])
                (Form.emailContacto data)) as H6.
  pose proof (proj2 (linkPostulacion_parse (p ++ ["linkPostulacion"%string])
                       (Form.linkPostulacion data))) as H7.
  pose proof (is_OK_fechaCierre (p ++ ["fechaCierre"%string]) (Form.fechaCierre data)) as H8.
  pose proof (is_OK_logo (p ++ ["logo"%string]) (Form.logo data)) as H9.
  destruct (titulo _ _ _) as [r1 i1], (descripcion _ _) as [r2 i2],
    (empresaConsultora _ _ _) as [r3 i3], (categoria _ _) as [r4 i4],
    (emailContacto _ _ _) as [r6 i6], (linkPostulacion _ _ _) as [r7 i7],
    (fechaCierre _ _) as [r8 i8], (logo _ _) as [r9 i9].
  cbn [fst snd z.any] in *.
  rewrite !is_OK_merge, H1, H2, H3, H4, H6, H7, H8, H9. cbn [is_OK].
  now rewrite !andb_true_r.
Qed.

Lemma fechaCierre_not_past_parsed now values :
  fechaCierre_not_past Date_parse_other now (object_value values)
  = fechaCierre_not_past Date_parse_other now values.
Proof. reflexivity. Qed.

Lemma channel_required values :
  email_required (object_value values) && link_required (object_value values)
  = match Form.formaPostulacion values with
    | MAIL => present (Form.emailContacto values)
    | LINK => present (Form.linkPostulacion values)
    end.
Proof.
  unfold email_required, link_required, object_value.
  cbn [Form.formaPostulacion Form.emailContacto Form.linkPostulacion].
  destruct (Form.formaPostulacion values).
  - rewrite blank_present. now destruct (present _).
  - rewrite blank_trimmed_present. now destruct (present _).
Qed.

Lemma is_OK_formSchema page now p values :
  is_OK (fst (formSchema emailRegex_test URL_canParse Date_parse_other page now p values))
  = form_ok emailRegex_test URL_canParse Date_parse_other page now values.
Proof.
  unfold formSchema, form_ok.
  rewrite !is_OK_refine, !parsed_refine, object_parsed, is_OK_object,
    fechaCierre_not_past_parsed, <- channel_required.
  repeat rewrite <- andb_assoc. reflexivity.
Qed.

(** [handleSubmit] in terms of [form_ok]. *)
Lemma handleSubmit_form_ok {R} page now (onSubmit : Form.t -> R) values :
  handleSubmit emailRegex_test URL_canParse Date_parse_other page now onSubmit values
  = if form_ok emailRegex_test URL_canParse Date_parse_other page now values
    then Some (onSubmit (object_value values))
    else None.
Proof.
  unfold handleSubmit, z.safeParse.
  pose proof (is_OK_formSchema page now [] values) as Hok.
  assert (parsed (fst (formSchema emailRegex_test URL_canParse Date_parse_other
                         page now [] values)) = Some (object_value values)) as Hval.
  { unfold formSchema. now rewrite !parsed_refine, object_parsed. }
  destruct (formSchema _ _ _ page now [] values) as [[v|v|] issues];
    cbn [fst is_OK parsed] in *; rewrite <- Hok; try reflexivity.
  now injection Hval as ->.
Qed.

(** The issues of the link: the URL message or nothing. The refinement that
    comes after [trim] holds of every trimmed string, so its message, "El
    link no puede ser solo espacios", is never reported. *)
Theorem linkPostulacion_issues p v :
  issues_of (linkPostulacion URL_canParse) p v
  = match v with
    | z.value s =>
        if URL_canParse s then []
        else [z.mkIssue p (js "Debes ingresar una URL válida (ej: https://example.com)")]
    | _ => []
    end
  /\ is_OK (fst (linkPostulacion URL_canParse p v)) = absent_or URL_canParse v.
Proof. exact (linkPostulacion_parse p v). Qed.

(** The form is submitted exactly when [form_ok] holds of its state, and
    then [onSubmit] receives the state with the title, the description, the
    company and the link trimmed; in every other state [onSubmit] is not
    run. *)
Theorem handleSubmit_submits_iff {R} page now (onSubmit : Form.t -> R) values :
  handleSubmit emailRegex_test URL_canParse Date_parse_other page now onSubmit values
  = if form_ok emailRegex_test URL_canParse Date_parse_other page now values
    then Some (onSubmit (object_value values))
    else None.
Proof. exact (handleSubmit_form_ok page now onSubmit values). Qed.

End Submission.

(* ================================================================== *)
(** * The closing date, out and back *)

(** The day of the year counted from March, for a valid calendar date. *)
Lemma doy_bounds y m d :
  1 <= m <= 12 -> 1 <= d <= daysInMonth y m ->
  let mp := if 2 <? m then m - 3 else m + 9 in
  let doy := (153 * mp + 2) / 5 + d - 1 in
  0 <= mp <= 11 /\ 0 <= doy <= 365 /\ (5 * doy + 2) / 153 = mp
  /\ (doy = 365 -> m = 2 /\ isLeapYear y = true).
Proof.
  intros Hm Hd mp doy.
  pose proof (daysInMonth_cases y m Hm) as Hc.
  assert (daysInMonth y m <= 29 \/ m <> 2) as Hfeb.
  { destruct Hc as [[-> ->]|[[? ->]|[? ->]]]; try lia. left. destruct (isLeapYear y); lia. }
  subst doy mp.
  destruct (2 <? m) eqn:E.
  - assert (m = 3 \/ m = 4 \/ m = 5 \/ m = 6 \/ m = 7 \/ m = 8 \/ m = 9 \/ m = 10 \/ m = 11 \/ m = 12) as Hcases by lia.
    destruct Hc as [[? ?]|[[? Hq]|[? Hq]]]; try lia; rewrite Hq in Hd;
    repeat (destruct Hcases as [-> | Hcases]); try subst m; try lia;
      (split; [lia|]); (split; [Z.div_mod_to_equations; lia|]);
      (split; [Z.div_mod_to_equations; lia| intros; Z.div_mod_to_equations; lia]).
  - assert (m = 1 \/ m = 2) as [-> | ->] by lia.
    + destruct Hc as [[? ?]|[[? Hq]|[? Hq]]]; try lia. rewrite Hq in Hd.
      (split; [lia|]); (split; [Z.div_mod_to_equations; lia|]);
      (split; [Z.div_mod_to_equations; lia| intros; Z.div_mod_to_equations; lia]).
    + destruct Hc as [[? Hq]|[[? ?]|[? ?]]]; try lia. rewrite Hq in Hd.
      destruct (isLeapYear y) eqn:El;
      (split; [lia|]); (split; [Z.div_mod_to_equations; lia|]);
      (split; [Z.div_mod_to_equations; lia| intros; try split; auto; Z.div_mod_to_equations; lia]).
Qed.

Lemma year_of_era_unique yoe doy :
  0 <= yoe <= 399 -> 0 <= doy <= 365 ->
  (doy = 365 -> (yoe + 1) mod 4 = 0 /\ ((yoe + 1) mod 100 <> 0 \/ (yoe + 1) mod 400 = 0)) ->
  let doe := yoe * 365 + yoe / 4 - yoe / 100 + doy in
  0 <= doe <= 146096
  /\ (doe - doe / 1460 + doe / 36524 - doe / 146096) / 365 = yoe.
Proof.
  intros Hy Hd Hl doe. subst doe.
  destruct (Z.eq_dec doy 365) as [E|E].
  - destruct (Hl E) as [H4 H100]. clear Hl. Z.div_mod_to_equations; lia.
  - clear Hl. Z.div_mod_to_equations; lia.
Qed.

Lemma civil_from_days_of_date y m d :
  1 <= m <= 12 -> 1 <= d <= daysInMonth y m ->
  civil_from_days (days_from_civil y m d) = (y, m, d).
Proof.
  intros Hm Hd.
  pose proof (doy_bounds y m d Hm Hd) as (Hmp & Hdoy & Hback & Hleap). cbv zeta in *.
  unfold days_from_civil, civil_from_days.
  set (y' := if m <=? 2 then y - 1 else y) in *.
  set (era := y' / 400).
  set (yoe := y' - era * 400).
  set (mp := if 2 <? m then m - 3 else m + 9) in *.
  set (doy := (153 * mp + 2) / 5 + d - 1) in *.
  assert (0 <= yoe <= 399) as Hyoe by (subst yoe era; Z.div_mod_to_equations; lia).
  assert (doy = 365 ->
          (yoe + 1) mod 4 = 0 /\ ((yoe + 1) mod 100 <> 0 \/ (yoe + 1) mod 400 = 0)) as Hl.
  { intros E. destruct (Hleap E) as [-> Hly]. unfold isLeapYear in Hly.
    assert (y = yoe + era * 400 + 1) as Hy by (subst yoe era y'; cbn; lia).
    clear - Hly Hy. Z.div_mod_to_equations. lia. }
  pose proof (year_of_era_unique yoe doy Hyoe Hdoy Hl) as (Hdoe & Hyoe'). cbv zeta in *.
  set (doe := yoe * 365 + yoe / 4 - yoe / 100 + doy) in *.
  replace (era * 146097 + doe - 719468 + 719468) with (era * 146097 + doe) by lia.
  replace ((era * 146097 + doe) / 146097) with era by (Z.div_mod_to_equations; lia).
  replace (era * 146097 + doe - era * 146097) with doe by lia.
  rewrite Hyoe'.
  replace (doe - (365 * yoe + yoe / 4 - yoe / 100)) with doy by (subst doe; lia).
  rewrite Hback.
  assert (doy - (153 * mp + 2) / 5 + 1 = d) as -> by (subst doy; lia).
  subst mp y'. destruct (2 <? m) eqn:E2.
  - replace (m - 3 <? 10) with true by lia. replace (m - 3 + 3) with m by lia.
    replace (m <=? 2) with false by lia. f_equal. f_equal. subst yoe era.
    replace (m <=? 2) with false by lia. lia.
  - replace (m + 9 <? 10) with false by lia. replace (m + 9 - 9) with m by lia.
    replace (m <=? 2) with true by lia. f_equal. f_equal. subst yoe era.
    replace (m <=? 2) with true by lia. lia.
Qed.

(** [toISOString] of midnight UTC of a valid calendar date with a four-digit
    year. *)
Lemma isoOfTime_midnight y m d :
  0 <= y <= 9999 -> 1 <= m <= 12 -> 1 <= d <= daysInMonth y m ->
  isoOfTime (days_from_civil y m d * msPerDay) = isoDate y m d ++ js "T00:00:00.000Z".
Proof.
  intros Hy Hm Hd. unfold isoOfTime.
  replace (days_from_civil y m d * msPerDay / msPerDay) with (days_from_civil y m d)
    by (unfold msPerDay; Z.div_mod_to_equations; lia).
  replace ((days_from_civil y m d * msPerDay) mod msPerDay) with 0
    by (unfold msPerDay; Z.div_mod_to_equations; lia).
  rewrite (civil_from_days_of_date y m d Hm Hd).
  unfold isoYear, isoDate. replace ((0 <=? y) && (y <=? 9999)) with true by lia.
  rewrite <- !app_assoc. reflexivity.
Qed.

Lemma beforeT_isoDate y m d rest :
  beforeT (isoDate y m d ++ js "T" ++ rest) = isoDate y m d.
Proof.
  unfold isoDate, pad4, pad3, pad2. cbn [app js bytes_of_string utf16_of_utf8].
  cbn -[digit]. rewrite !digit_not_T. reflexivity.
Qed.

Section ClosingDate.

Variable emailRegex_test : jsstring -> bool.
Variable URL_canParse : jsstring -> bool.
Variable Date_parse_other : jsstring -> Date.
Variable apiUrl : jsstring.
Variable World : Type.
Variable fetch : Request -> World -> Promise Response * World.
Variable Date_now : World -> Z.


(** A posting whose closing date is today or earlier cannot be saved from
    the edit form as it was loaded: the form shows the UTC day of the stored
    instant, and when midnight of that day is before [now] a form with that
    day is not submitted. *)
Theorem EditForm_passed_fechaCierre_blocks now values stored t :
  0 <= t < 253402300800000 ->
  stored <> [] ->
  Date_of_string Date_parse_other stored = Some t ->
  t / msPerDay * msPerDay < now ->
  exists day,
    EditForm_default_fechaCierre Date_parse_other (Some stored) = Resolved (z.value day)
    /\ (Form.fechaCierre values = z.value day ->
        forall R (onSubmit : Form.t -> R),
          handleSubmit emailRegex_test URL_canParse Date_parse_other EditarAviso now
            onSubmit values = None).
Proof.
  intros Ht Hstored Hparse Hpast.
  destruct (isoOfTime_date t Ht) as (y & m & d & Hy & Hm & Hd & Hday & Hstr).
  exists (isoDate y m d). split.
  - unfold EditForm_default_fechaCierre.
    destruct stored as [|c stored']; [contradiction|]. cbn [str_falsy].
    rewrite Hparse. cbn [toISOString]. now rewrite Hstr.
  - intros Hfecha.
    destruct (fechaCierre_of_a_day emailRegex_test URL_canParse Date_parse_other
                EditarAviso now values y m d Hy Hm Hd Hfecha) as [_ Hlate].
    apply Hlate. now rewrite Hday.
Qed.

(** A closing date the host cannot parse is not reported by the schema, and
    then nothing is sent: [onSubmit] of the create page throws the
    [RangeError] of [toISOString] while it builds its data, and
    [updateOferta] throws it before it calls [fetch]. *)
Theorem unparseable_fechaCierre_passes_then_throws now values s :
  Form.fechaCierre values = z.value s ->
  s <> [] ->
  Date_of_string Date_parse_other s = None ->
  fechaCierre_not_past Date_parse_other now values = true
  /\ (forall session,
        PublicarEmpleo_createData Date_parse_other session (object_value values)
        = Rejected (ErrorObject "RangeError" (js "Invalid time value")))
  /\ (forall oferta id session existingLogoUrl token w,
        updateOferta apiUrl World fetch Date_now
          (EditForm_updateData Date_parse_other oferta id session existingLogoUrl
             (object_value values)) token w
        = (Rejected (ErrorObject "RangeError" (js "Invalid time value")), w)).
Proof.
  intros Hfecha Hs Hnone.
  destruct s as [|c s']; [contradiction|].
  split; [|split].
  - unfold fechaCierre_not_past. rewrite Hfecha, Hnone. reflexivity.
  - intros session. unfold PublicarEmpleo_createData, object_value.
    cbn [Form.fechaCierre]. rewrite Hfecha. cbn [str_falsy]. rewrite Hnone. reflexivity.
  - intros oferta id session existingLogoUrl token w.
    rewrite updateOferta_sends.
    destruct (updateOferta_formData_built World Date_now
                (EditForm_updateData Date_parse_other oferta id session existingLogoUrl
                   (object_value values)) w)
      as [[_ ->] | (cierre & rest & Hres)]; [reflexivity|].
    exfalso. revert Hres.
    unfold updateOferta_formData, EditForm_updateData, object_value, bind, new_Date, await,
      ret. cbn [UpdateData.fechaCierre Form.fechaCierre].
    rewrite Hfecha. cbn [falsy str_falsy]. rewrite Hnone. cbn. discriminate.
Qed.

End ClosingDate.

(* ================================================================== *)
(** * The two channels, from the form to the payload *)

Section Channels.

Variable emailRegex_test : jsstring -> bool.
Variable URL_canParse : jsstring -> bool.
Variable Date_parse_other : jsstring -> Date.
Variable World : Type.
Variable Date_now : World -> Z.

Lemma object_issues page p data :
  issues_of (object emailRegex_test URL_canParse page) p data
  = issues_of (titulo page) (p ++ ["titulo"%string]) (Form.titulo data)
    ++ issues_of descripcion (p ++ ["descripcion"%string]) (Form.descripcion data)
    ++ issues_of (empresaConsultora page) (p ++ ["empresaConsultora"%string])
         (Form.empresaConsultora data)
    ++ issues_of categoria (p ++ ["categoria"%string]) (Form.categoria data)
    ++ issues_of (emailContacto emailRegex_test) (p ++ ["emailContacto"%string])
         (Form.emailContacto data)
    ++ issues_of (linkPostulacion URL_canParse) (p ++ ["linkPostulacion"%string])
         (Form.linkPostulacion data)
    ++ issues_of fechaCierre (p ++ ["fechaCierre"%string]) (Form.fechaCierre data)
    ++ issues_of logo (p ++ ["logo"%string]) (Form.logo data).
Proof.
  unfold issues_of, object.
  destruct (titulo _ _ _) as [r1 i1], (descripcion _ _) as [r2 i2],
    (empresaConsultora _ _ _) as [r3 i3], (categoria _ _) as [r4 i4],
    (emailContacto _ _ _) as [r6 i6], (linkPostulacion _ _ _) as [r7 i7],
    (fechaCierre _ _) as [r8 i8], (logo _ _) as [r9 i9].
  reflexivity.
Qed.

(** The e-mail is checked whatever the channel: an e-mail left in the form
    that does not match the pattern is reported at [emailContacto] and blocks
    the submission, also under LINK, where the create page does not show the
    field. *)
Theorem emailContacto_checked_whatever_the_channel page now values s :
  Form.emailContacto values = z.value s ->
  emailRegex_test s = false ->
  In (z.mkIssue ["emailContacto"%string] (js "Debes ingresar un email válido"))
    (issues_of (formSchema emailRegex_test URL_canParse Date_parse_other page now)
       [] values)
  /\ forall R (onSubmit : Form.t -> R),
      handleSubmit emailRegex_test URL_canParse Date_parse_other page now
        onSubmit values = None.
Proof.
  intros Hfield Htest. split.
  - rewrite formSchema_issues, object_issues, Hfield.
    apply in_or_app. left. do 4 (apply in_or_app; right). apply in_or_app. left.
    unfold issues_of, emailContacto, z.optional_nullable, z.string. cbn.
    rewrite Htest. now left.
  - intros R onSubmit. rewrite handleSubmit_form_ok.
    unfold form_ok. rewrite Hfield. cbn [absent_or]. rewrite Htest.
    now rewrite !andb_false_r.
Qed.

(** The link is checked whatever the channel: a link left in the form that
    is not a URL is reported at [linkPostulacion] and blocks the submission,
    also under MAIL. *)
Theorem linkPostulacion_checked_whatever_the_channel page now values s :
  Form.linkPostulacion values = z.value s ->
  URL_canParse s = false ->
  In (z.mkIssue ["linkPostulacion"%string]
        (js "Debes ingresar una URL válida (ej: https://example.com)"))
    (issues_of (formSchema emailRegex_test URL_canParse Date_parse_other page now)
       [] values)
  /\ forall R (onSubmit : Form.t -> R),
      handleSubmit emailRegex_test URL_canParse Date_parse_other page now
        onSubmit values = None.
Proof.
  intros Hfield Htest. split.
  - rewrite formSchema_issues, object_issues.
    apply in_or_app. left. do 5 (apply in_or_app; right). apply in_or_app. left.
    rewrite (proj1 (linkPostulacion_parse URL_canParse _ _)), Hfield, Htest.
    now left.
  - intros R onSubmit. rewrite handleSubmit_form_ok.
    unfold form_ok. rewrite Hfield. cbn [absent_or]. rewrite Htest.
    now rewrite !andb_false_r.
Qed.

Lemma present_value v : present v = true -> exists s, v = z.value s /\ s <> [].
Proof.
  destruct v as [| |s]; try discriminate. intros H. exists s. split; [reflexivity|].
  now destruct s.
Qed.

Lemma contact_of_submitted page now values :
  form_ok emailRegex_test URL_canParse Date_parse_other page now values = true ->
  exists contact, contact_of values = z.value contact /\ contact <> [].
Proof.
  unfold form_ok, contact_of. intros H.
  apply andb_prop in H as [H _]. apply andb_prop in H as [_ H].
  destruct (Form.formaPostulacion values).
  - now apply present_value.
  - destruct (Form.linkPostulacion values) as [| |s]; try discriminate.
    cbn [present maybe_trim] in *. exists (trim s). split; [reflexivity|].
    pose proof (trim_keeps_nonSpace s H). now destruct (trim s).
Qed.

(** Every payload made from a submitted form has exactly one contact: the
    member of the selected channel is the non-empty string of the form (the
    e-mail as typed, the link trimmed) and the member of the other channel
    is [null]. This holds for the creation of the create page and for the
    update of the edit page. *)
Theorem submitted_payload_has_one_contact page now values :
  form_ok emailRegex_test URL_canParse Date_parse_other page now values = true ->
  exists contact,
    contact_of values = z.value contact /\ contact <> []
    /\ (forall session createData w formData w',
          PublicarEmpleo_createData Date_parse_other session (object_value values)
          = Resolved createData ->
          createOferta_formData World Date_now createData w = (Resolved formData, w') ->
          exists oferta,
            oferta_part formData = Some oferta
            /\ payload_contact (Form.formaPostulacion values) oferta
               = Some (JString contact)
            /\ payload_other (Form.formaPostulacion values) oferta = Some JNull)
    /\ (forall posting id session existingLogoUrl w formData w',
          updateOferta_formData World Date_now
            (EditForm_updateData Date_parse_other posting id session existingLogoUrl
               (object_value values)) w
          = (Resolved formData, w') ->
          exists oferta,
            oferta_part formData = Some oferta
            /\ payload_contact (Form.formaPostulacion values) oferta
               = Some (JString contact)
            /\ payload_other (Form.formaPostulacion values) oferta = Some JNull).
Proof.
  intros Hok.
  destruct (contact_of_submitted page now values Hok) as (contact & Hcontact & Hne).
  exists contact. split; [exact Hcontact|]. split; [exact Hne|].
  assert (str_falsy contact = false) as Hfalsy by now destruct contact.
  split.
  - intros session createData w formData w' Hdata Hbuilt.
    destruct (createOferta_formData_built World Date_now createData w) as (rest & Hres).
    rewrite Hres in Hbuilt. injection Hbuilt as <- _.
    eexists. split; [apply oferta_part_first|].
    unfold PublicarEmpleo_createData, object_value in Hdata.
    cbn [Form.fechaCierre Form.titulo Form.descripcion Form.empresaConsultora
         Form.formaPostulacion Form.emailContacto Form.linkPostulacion Form.categoria
         Form.logo] in Hdata.
    unfold contact_of in Hcontact.
    assert (exists cierre,
               createData
               = CreateData.mk (trim (Form.titulo values)) (trim (Form.descripcion values))
                   (session_user_id session) (trim (Form.empresaConsultora values)) cierre
                   (formaPostulacion_string (Form.formaPostulacion values))
                   match Form.formaPostulacion values with
                   | MAIL => coalesce_null (Form.emailContacto values)
                   | LINK => None
                   end
                   match Form.formaPostulacion values with
                   | LINK => coalesce_null (maybe_trim (Form.linkPostulacion values))
                   | MAIL => None
                   end
                   (Form.categoria values) (Form.logo values)) as (cierre & ->).
    { destruct (Form.fechaCierre values) as [| |s]; try (injection Hdata as <-; eauto).
      destruct (str_falsy s); [injection Hdata as <-; eauto|].
      destruct (toISOString _); [injection Hdata as <-; eauto | discriminate]. }
    unfold createOferta_ofertaData, payload_contact, payload_other.
    cbn [CreateData.formaPostulacion CreateData.emailContacto CreateData.linkPostulacion].
    destruct (Form.formaPostulacion values); rewrite Hcontact; split; reflexivity.
  - intros posting id session existingLogoUrl w formData w' Hbuilt.
    destruct (updateOferta_formData_built World Date_now
                (EditForm_updateData Date_parse_other posting id session existingLogoUrl
                   (object_value values)) w)
      as [[_ Hrej] | (cierre & rest & Hres)];
      [rewrite Hrej in Hbuilt; discriminate|].
    rewrite Hres in Hbuilt. injection Hbuilt as <- _.
    eexists. split; [apply oferta_part_first|].
    unfold updateOferta_ofertaData, EditForm_updateData, object_value, payload_contact,
      payload_other.
    cbn [UpdateData.formaPostulacion UpdateData.emailContacto UpdateData.linkPostulacion
         Form.formaPostulacion Form.emailContacto Form.linkPostulacion].
    unfold contact_of in Hcontact.
    destruct (Form.formaPostulacion values); rewrite Hcontact; cbn [or_null];
      rewrite Hfalsy; split; reflexivity.
Qed.


End Channels.

(* ================================================================== *)
(** * The name of the logo in place *)

Lemma split_not_nil sep s : split sep s <> [].
Proof.
  destruct s as [|c s]; cbn; [discriminate|].
  destruct (c =? sep)%N; [discriminate|]. destruct (split sep s); discriminate.
Qed.

Lemma split_without sep s : ~ In sep s -> split sep s = [s].
Proof.
  induction s as [|c s IH]; cbn; [reflexivity|]. intros Hnot.
  destruct (N.eqb_spec c sep) as [->|Hne]; [tauto|].
  rewrite IH by tauto. reflexivity.
Qed.

Lemma last_cons_not_nil {A} (x : A) l d : l <> [] -> last (x :: l) d = last l d.
Proof. destruct l; [contradiction | reflexivity]. Qed.

Lemma split_with_two sep a b : (2 <= List.length (split sep (a ++ sep :: b)))%nat.
Proof.
  induction a as [|c a IH]; cbn.
  - rewrite N.eqb_refl. cbn. pose proof (split_not_nil sep b).
    destruct (split sep b); [contradiction | cbn; lia].
  - destruct (c =? sep)%N; [cbn; lia|].
    destruct (split sep (a ++ sep :: b)); cbn in *; lia.
Qed.

Lemma last_split_after sep a b :
  last (split sep (a ++ sep :: b)) [] = last (split sep b) [].
Proof.
  induction a as [|c a IH]; cbn.
  - rewrite N.eqb_refl. apply last_cons_not_nil, split_not_nil.
  - destruct (c =? sep)%N.
    + rewrite last_cons_not_nil by apply split_not_nil. exact IH.
    + pose proof (split_with_two sep a b) as Hlen.
      destruct (split sep (a ++ sep :: b)) as [|seg [|seg' rest]]; cbn in Hlen; try lia.
      exact IH.
Qed.

Lemma existsb_eqb_In sep (s : jsstring) : existsb (N.eqb sep) s = false -> ~ In sep s.
Proof.
  induction s as [|c s IH]; cbn; [tauto|]. intros H.
  apply orb_false_elim in H as [Hc Hs]. intros [->|Hin].
  - now rewrite N.eqb_refl in Hc.
  - now apply IH.
Qed.

(** The name shown for the logo in place is what follows the last ['_'] of
    its URL, and a URL with no ['_'] is shown whole. *)
Theorem EditForm_logo_name_is_after_last_underscore (directory name : jsstring) :
  existsb (N.eqb (z.code "_")) name = false ->
  EditForm_logo_name (directory ++ z.code "_" :: name) = name
  /\ EditForm_logo_name name = name.
Proof.
  intros Hnot. apply existsb_eqb_In in Hnot. unfold EditForm_logo_name. split.
  - now rewrite last_split_after, split_without.
  - now rewrite split_without.
Qed.

(* ================================================================== *)
(** * The properties above on sample exchanges and forms *)

(** The network down, with the error of a failed connection and with a
    thrown value that is no [Error]. *)
Lemma network_failure_is_surfaced_witness :
  fetchOfertas Example.apiUrl Scripted scripted_fetch (Example.world [])
  = (Rejected (ErrorObject "TypeError" (js "Failed to fetch")), Example.world [])
  /\ createOferta Example.apiUrl Scripted scripted_fetch clock Example.create_data
       (js "token") (Example.world [Rejected (NonError (JString (js "down")))])
     = (Rejected (Error (js "Error desconocido al crear oferta")), Example.world []).
Proof.
  split.
  - destruct (network_failure_is_surfaced Example.apiUrl Scripted scripted_fetch clock
                (Example.world []) (ErrorObject "TypeError" (js "Failed to fetch"))
                (Example.world [])) as (_ & _ & H & _).
    + intros req. reflexivity.
    + exact H.
  - destruct (network_failure_is_surfaced Example.apiUrl Scripted scripted_fetch clock
                (Example.world [Rejected (NonError (JString (js "down")))])
                (NonError (JString (js "down"))) (Example.world []))
      as (_ & _ & _ & _ & _ & H & _).
    + intros req. reflexivity.
    + exact (H Example.create_data (js "token")).
Defined.




(** The parts of the sample update, which has neither a file nor a logo in
    place. *)
Lemma multipart_parts_witness :
  map fst Example.update_formData = [js "oferta"; js "logoUrl"]
  /\ FormData_get (js "logoUrl") Example.update_formData = Some (FormString (js "null")).
Proof.
  destruct (multipart_parts Scripted clock (Example.world [])) as [Hupdate _].
  destruct (Hupdate Example.update_data Example.update_formData (Example.world []))
    as (Hkeys & _ & Hurl).
  - vm_compute. reflexivity.
  - split; [exact Hkeys | exact Hurl].
Defined.



(** The image of a posting with a logo. *)
Lemma metadata_image_witness :
  Metadata.tw_images
    (Metadata.twitter (metadata_of Example.apiUrl (js "42") Example2.posting_with_logo))
  = Example.apiUrl ++ js "/uploads/17_acme.png".
Proof.
  destruct (metadata_image Example.apiUrl (js "42") Example2.posting_with_logo)
    as (_ & Hlogo & _).
  apply Hlogo; [reflexivity | discriminate].
Defined.


(** A posting that closed at midnight of 2026-11-02, opened in the edit
    form at noon of that day. *)
Lemma EditForm_passed_fechaCierre_blocks_witness :
  exists day,
    EditForm_default_fechaCierre Example.Date_parse_other (Some (js "2026-11-02"))
    = Resolved (z.value day)
    /\ (Form.fechaCierre Example.closes_today = z.value day ->
        forall R (onSubmit : Form.t -> R),
          handleSubmit Example.emailRegex_test Example.URL_canParse
            Example.Date_parse_other EditarAviso noon_2026_11_02 onSubmit
            Example.closes_today
          = None).
Proof.
  apply (EditForm_passed_fechaCierre_blocks Example.emailRegex_test Example.URL_canParse
           Example.Date_parse_other noon_2026_11_02 Example.closes_today
           (js "2026-11-02") (days_from_civil 2026 11 2 * msPerDay)).
  - vm_compute. split; [discriminate | reflexivity].
  - discriminate.
  - reflexivity.
  - vm_compute. reflexivity.
Defined.

(** A form that closes "pronto": it is submitted, and the create page
    throws. *)
Lemma unparseable_fechaCierre_passes_then_throws_witness :
  handleSubmit Example2.emailRegex_test Example2.URL_canParse Example.Date_parse_other
    NuevoAviso noon_2026_11_02
    (PublicarEmpleo_createData Example.Date_parse_other None) Example2.closes_never
  = Some (Rejected (ErrorObject "RangeError" (js "Invalid time value")))
  /\ fechaCierre_not_past Example.Date_parse_other noon_2026_11_02 Example2.closes_never
     = true
  /\ PublicarEmpleo_createData Example.Date_parse_other None
       (object_value Example2.closes_never)
     = Rejected (ErrorObject "RangeError" (js "Invalid time value")).
Proof.
  split; [vm_compute; reflexivity|].
  destruct (unparseable_fechaCierre_passes_then_throws Example.Date_parse_other
              Example.apiUrl Scripted scripted_fetch clock noon_2026_11_02
              Example2.closes_never (js "pronto")) as (Hpasses & Hcreate & _).
  - reflexivity.
  - discriminate.
  - reflexivity.
  - split; [exact Hpasses | exact (Hcreate None)].
Defined.

(** The form with the channel LINK, a link, and the e-mail "rrhh@" left from
    before. *)
Lemma emailContacto_checked_whatever_the_channel_witness :
  Form.formaPostulacion Example2.link_with_stale_email = LINK
  /\ In (z.mkIssue ["emailContacto"%string] (js "Debes ingresar un email válido"))
       (issues_of
          (formSchema Example2.emailRegex_test Example2.URL_canParse
             Example.Date_parse_other NuevoAviso noon_2026_11_02)
          [] Example2.link_with_stale_email)
  /\ handleSubmit Example2.emailRegex_test Example2.URL_canParse Example.Date_parse_other
       NuevoAviso noon_2026_11_02 (fun data => data) Example2.link_with_stale_email
     = None.
Proof.
  split; [reflexivity|].
  destruct (emailContacto_checked_whatever_the_channel Example2.emailRegex_test
              Example2.URL_canParse Example.Date_parse_other NuevoAviso noon_2026_11_02
              Example2.link_with_stale_email (js "rrhh@")) as [Hissue Hblocked].
  - reflexivity.
  - reflexivity.
  - split; [exact Hissue | apply Hblocked].
Defined.

(** The form with the channel MAIL, an e-mail, and the link "acme" left from
    before. *)
Lemma linkPostulacion_checked_whatever_the_channel_witness :
  Form.formaPostulacion Example2.mail_with_stale_link = MAIL
  /\ In (z.mkIssue ["linkPostulacion"%string]
           (js "Debes ingresar una URL válida (ej: https://example.com)"))
       (issues_of
          (formSchema Example2.emailRegex_test Example2.URL_canParse
             Example.Date_parse_other NuevoAviso noon_2026_11_02)
          [] Example2.mail_with_stale_link)
  /\ handleSubmit Example2.emailRegex_test Example2.URL_canParse Example.Date_parse_other
       NuevoAviso noon_2026_11_02 (fun data => data) Example2.mail_with_stale_link
     = None.
Proof.
  split; [reflexivity|].
  destruct (linkPostulacion_checked_whatever_the_channel Example2.emailRegex_test
              Example2.URL_canParse Example.Date_parse_other NuevoAviso noon_2026_11_02
              Example2.mail_with_stale_link (js "acme")) as [Hissue Hblocked].
  - reflexivity.
  - reflexivity.
  - split; [exact Hissue | apply Hblocked].
Defined.

(** The valid form with the channel MAIL: the payload of its creation has
    the e-mail and a [null] link. *)
Lemma submitted_payload_has_one_contact_witness :
  exists contact,
    contact_of Example2.valid_mail = z.value contact /\ contact <> []
    /\ (forall session createData w formData w',
          PublicarEmpleo_createData Example.Date_parse_other session
            (object_value Example2.valid_mail)
          = Resolved createData ->
          createOferta_formData Scripted clock createData w = (Resolved formData, w') ->
          exists oferta,
            oferta_part formData = Some oferta
            /\ payload_contact (Form.formaPostulacion Example2.valid_mail) oferta
               = Some (JString contact)
            /\ payload_other (Form.formaPostulacion Example2.valid_mail) oferta
               = Some JNull)
    /\ (forall posting id session existingLogoUrl w formData w',
          updateOferta_formData Scripted clock
            (EditForm_updateData Example.Date_parse_other posting id session
               existingLogoUrl (object_value Example2.valid_mail)) w
          = (Resolved formData, w') ->
          exists oferta,
            oferta_part formData = Some oferta
            /\ payload_contact (Form.formaPostulacion Example2.valid_mail) oferta
               = Some (JString contact)
            /\ payload_other (Form.formaPostulacion Example2.valid_mail) oferta
               = Some JNull).
Proof.
  apply (submitted_payload_has_one_contact Example2.emailRegex_test Example2.URL_canParse
           Example.Date_parse_other Scripted clock NuevoAviso noon_2026_11_02
           Example2.valid_mail).
  vm_compute. reflexivity.
Defined.


(** The logo of the sample posting. *)
Lemma EditForm_logo_name_is_after_last_underscore_witness :
  EditForm_logo_name (js "/uploads/17_acme.png") = js "acme.png"
  /\ EditForm_logo_name (js "acme.png") = js "acme.png".
Proof.
  apply (EditForm_logo_name_is_after_last_underscore (js "/uploads/17") (js "acme.png")).
  reflexivity.
Defined.
